(** * SPA_habits: the habit views and the user routes

    A shallow embedding of [habits/views.py] and [users/urls.py].

    The views are Django REST framework generic views: each class of the
    source sets a few attributes and overrides a few methods, and inherits
    the rest ([dispatch], [get_object], [create], [update], ...) from the
    framework.  The overridden methods are transcribed from the source under
    their own names, one module per class; the inherited ones are written
    out once, in [Module rest_framework], following the framework's
    methods of the same names.

    The [Habit] table is a finite map from primary key to row.  A queryset
    is the finite map of the rows it selects: the order of the rows is not
    part of the model. *)

From Stdlib Require Import ZArith Ascii Floats.SpecFloat.
From stdpp Require Import gmap strings list fin_maps.

Set Warnings "-register-all".
#[local] Open Scope Z_scope.
#[local] Open Scope string_scope.

(** ** Python values and exceptions *)

(** [request.user]: the anonymous user, or the user with a primary key. *)
Inductive User : Type :=
  | AnonymousUser
  | AuthUser (pk : Z).

#[global] Instance User_eq_dec : EqDecision User.
Proof. solve_decision. Defined.

(** The values a parsed request body or a serializer's [validated_data] can
    hold.  [PUser u] is a user object. *)
Inductive pyval : Type :=
  | PNone
  | PBool (b : bool)
  | PInt (n : Z)
  | PFloat (x : spec_float)
  | PStr (s : string)
  | PList (l : list pyval)
  | PDict (d : gmap string pyval)
  | PUser (u : User).

(** [bool(v)], what [if v:] tests. *)
Definition truthy (v : pyval) : bool :=
  match v with
  | PNone => false
  | PBool b => b
  | PInt n => negb (Z.eqb n 0)
  | PFloat (S754_zero _) => false
  | PFloat _ => true
  | PStr s => negb (String.eqb s "")
  | PList l => match l with [] => false | _ => true end
  | PDict d => match map_to_list d with [] => false | _ => true end
  | PUser _ => true
  end.

Inductive exn : Type :=
  | Http404
  | NotAuthenticated
  | AuthenticationFailed
  | PermissionDenied
  | ValidationError
  | MethodNotAllowed
  | AttributeError
  | TypeError
  | IntegrityError
  | ValueError
  | AssertionError.

Inductive result (A : Type) : Type :=
  | Ok (a : A)
  | Raise (e : exn).
Arguments Ok {A} a.
Arguments Raise {A} e.

(** [d.get(k)]: the value under [k], [None] when the key is absent, and an
    [AttributeError] when [d] is no mapping. *)
Definition py_get (d : pyval) (k : string) : result pyval :=
  match d with
  | PDict m => Ok (default PNone (m !! k))
  | _ => Raise AttributeError
  end.

(** ** Computations over a store that may raise *)

Definition M (S A : Type) : Type := S → result A * S.

Definition ret {S A} (a : A) : M S A := λ s, (Ok a, s).
Definition raise {S A} (e : exn) : M S A := λ s, (Raise e, s).
Definition lift {S A} (r : result A) : M S A := λ s, (r, s).
Definition bind {S A B} (m : M S A) (k : A → M S B) : M S B :=
  λ s, match m s with
       | (Ok a, s') => k a s'
       | (Raise e, s') => (Raise e, s')
       end.
Definition get_store {S} : M S S := λ s, (Ok s, s).
Definition put_store {S} (s : S) : M S unit := λ _, (Ok tt, s).

Notation "'let!' x ':=' m 'in' k" := (bind m (λ x, k))
  (at level 10, x name, m at level 100, k at level 200).
Notation "'do!' m 'in' k" := (bind m (λ _, k))
  (at level 10, m at level 100, k at level 200).

(** ** The data model *)

(** Modelled from the spec: [habits/models.py] is not among the sources.
    A row of the [Habit] table without its primary key, with the two columns
    the views query, the owner ([user], the primary key of a user; every
    habit has exactly one) and the visibility flag, and the other columns by
    name. *)
Record Habit : Type := mkHabit {
  user : Z;
  is_published : bool;
  fields : gmap string pyval
}.

Abbreviation HabitTable := (gmap Z Habit).

(** ** Requests *)

Inductive Method : Type := GET | POST | PUT | PATCH | DELETE | HEAD | OPTIONS.

(** What the [Authorization] header of a request amounts to: no bearer token,
    a token that does not verify, or a token that identifies a user. *)
Inductive Authorization : Type :=
  | NoToken
  | InvalidToken
  | ValidToken (pk : Z).

Record HttpRequest : Type := mkHttpRequest {
  http_method : Method;
  http_authorization : Authorization;
  http_query : gmap string string;
  http_data : pyval
}.

(** The framework's request: the HTTP request and the user that
    authentication found. *)
Record Request : Type := mkRequest {
  http : HttpRequest;
  request_user : User
}.

Definition method (r : Request) : Method := http_method (http r).
Definition data (r : Request) : pyval := http_data (http r).
Definition query_params (r : Request) : gmap string string := http_query (http r).

(** A view instance, [self]: the request and the keyword arguments captured
    from the URL. *)
Record View : Type := mkView {
  request : Request;
  kwargs : gmap string Z
}.

(** ** Queries on the [Habit] table *)

(** The keyword lookups the views use, and [Q] objects joined by [|]. *)
Inductive Q : Type :=
  | Q_is_published (b : bool)
  | Q_user (u : User)
  | Q_or (q1 q2 : Q).

(** Building the query fails on a lookup that compares the [user] column
    with the anonymous user. *)
Fixpoint Q_check (q : Q) : result unit :=
  match q with
  | Q_is_published _ => Ok tt
  | Q_user (AuthUser _) => Ok tt
  | Q_user AnonymousUser => Raise TypeError
  | Q_or q1 q2 =>
      match Q_check q1 with
      | Ok _ => Q_check q2
      | Raise e => Raise e
      end
  end.

Fixpoint Q_matches (q : Q) (h : Habit) : bool :=
  match q with
  | Q_is_published b => Bool.eqb (is_published h) b
  | Q_user u => bool_decide (AuthUser (user h) = u)
  | Q_or q1 q2 => Q_matches q1 h || Q_matches q2 h
  end.

(** A queryset is a query still to be run: [Habit.objects.filter(q)] run on
    the table [objects]. *)
Definition QuerySet : Type := HabitTable → result HabitTable.

Definition Habit_objects_filter (q : Q) : QuerySet :=
  λ objects,
    match Q_check q with
    | Ok _ => Ok (filter (λ row, Q_matches q row.2 = true) objects)
    | Raise e => Raise e
    end.

(** ** The framework's classes *)

Inductive Permission : Type := AllowAny | IsAuthenticated.
Inductive Authenticator : Type := JWTAuthentication.
Inductive FilterBackend : Type := DjangoFilterBackend | SearchFilter | OrderingFilter.
Inductive Paginator : Type := HabitPaginator.

Inductive SerializerClass : Type :=
  | HabitUsefulCreateUpdateSerializer
  | HabitPleasantCreateUpdateSerializer
  | HabitListRetrieveSerializer.

#[global] Instance SerializerClass_eq_dec : EqDecision SerializerClass.
Proof. solve_decision. Defined.
#[global] Instance FilterBackend_eq_dec : EqDecision FilterBackend.
Proof. solve_decision. Defined.
#[global] Instance Permission_eq_dec : EqDecision Permission.
Proof. solve_decision. Defined.

(** The value of a [..._fields] attribute: a string or a tuple of names. *)
Inductive FieldsAttr : Type :=
  | AttrStr (s : string)
  | AttrTuple (names : list string).

#[global] Instance FieldsAttr_eq_dec : EqDecision FieldsAttr.
Proof. solve_decision. Defined.

(** A serializer object: its class, the instance it was given (none on
    create) and the data that passed validation. *)
Record Serializer : Type := mkSerializer {
  ser_class : SerializerClass;
  ser_instance : option (Z * Habit);
  validated_data : gmap string pyval
}.

Inductive Body : Type :=
  | NoBody
  | Metadata
  | Detail (e : exn)
  | Object (ser : SerializerClass) (pk : Z) (h : Habit)
  | Page (ser : SerializerClass) (rows : list (Z * Habit)).

Record Response : Type := mkResponse {
  status_code : Z;
  body : Body
}.

(** What the repository and its libraries fix outside the two source files:
    the serializers' validation ([habits/serializers.py]), the default of the
    [is_published] column ([habits/models.py]), the paginator
    ([habits/paginators.py]), the default filter backends of the settings,
    and what the filter and search backends do with a configured list of
    fields. *)
Class Project : Type := {
  run_validation :
    SerializerClass → option (Z * Habit) → bool → pyval → result (gmap string pyval);
  is_published_default : bool;
  paginate_queryset :
    Paginator → gmap string string → HabitTable → result (list (Z * Habit));
  DEFAULT_FILTER_BACKENDS : list FilterBackend;
  filter_by_fields : FieldsAttr → gmap string string → HabitTable → result HabitTable;
  search_by_fields : FieldsAttr → gmap string string → HabitTable → result HabitTable
}.

(** Modelled from the spec: the settings module is not among the sources.
    The spec's acting user is identified by a bearer token, so the default
    authentication class is the token scheme's. *)
Definition DEFAULT_AUTHENTICATION_CLASSES : list Authenticator := [JWTAuthentication].

(** The concrete generic views the classes of the source extend. *)
Inductive Base : Type :=
  | CreateAPIView
  | ListAPIView
  | RetrieveAPIView
  | UpdateAPIView
  | DestroyAPIView.

(** A view class: the generic view it extends, and the attributes and
    methods a subclass can set.  An attribute the class body does not set is
    [None]; a method it does not override is the framework's. *)
Module GenericAPIView.
Record t : Type := mk {
  base : Base;
  permission_classes : list Permission;
  authentication_classes : option (list Authenticator);
  queryset : option QuerySet;
  serializer_class : option SerializerClass;
  pagination_class : option Paginator;
  filter_backends : option (list FilterBackend);
  filterset_fields : option FieldsAttr;
  search_fields : option FieldsAttr;
  ordering_fields : option FieldsAttr;
  get_queryset : View → QuerySet;
  get_serializer_class : View → result SerializerClass;
  perform_create : View → Serializer → M HabitTable (Z * Habit)
}.
End GenericAPIView.

(** ** The framework's methods *)

Module rest_framework.

(** *** Authentication and permissions, for any view and any store *)

(** The attributes of a view class that the gate reads. *)
Record APIView : Type := mkAPIView {
  api_permission_classes : list Permission;
  api_authentication_classes : list Authenticator
}.

(** Modelled from the spec: the token scheme is a library the settings
    would name.  No token: the authenticator does not apply; a token that
    does not verify: authentication fails; a valid token: its user. *)
Definition authenticate (a : Authenticator) (r : HttpRequest) : result (option Z) :=
  match a with
  | JWTAuthentication =>
      match http_authorization r with
      | NoToken => Ok None
      | InvalidToken => Raise AuthenticationFailed
      | ValidToken pk => Ok (Some pk)
      end
  end.

(** The header a 401 response carries; a scheme without one turns the 401
    into a 403. *)
Definition authenticate_header (a : Authenticator) : option string :=
  match a with
  | JWTAuthentication => Some "Bearer realm=api"
  end.

(** [Request._authenticate]: the first authenticator that applies decides. *)
Fixpoint perform_authentication (auths : list Authenticator) (r : HttpRequest)
  : result User :=
  match auths with
  | [] => Ok AnonymousUser
  | a :: rest =>
      match authenticate a r with
      | Raise e => Raise e
      | Ok (Some pk) => Ok (AuthUser pk)
      | Ok None => perform_authentication rest r
      end
  end.

Definition has_permission (p : Permission) (r : Request) : bool :=
  match p with
  | AllowAny => true
  | IsAuthenticated =>
      match request_user r with
      | AuthUser _ => true
      | AnonymousUser => false
      end
  end.

Definition permission_denied (cls : APIView) (r : Request) : exn :=
  match api_authentication_classes cls, request_user r with
  | _ :: _, AnonymousUser => NotAuthenticated
  | _, _ => PermissionDenied
  end.

Fixpoint check_permissions_loop (cls : APIView) (perms : list Permission) (r : Request)
  : result unit :=
  match perms with
  | [] => Ok tt
  | p :: rest =>
      if has_permission p r then check_permissions_loop cls rest r
      else Raise (permission_denied cls r)
  end.

Definition check_permissions (cls : APIView) (r : Request) : result unit :=
  check_permissions_loop cls (api_permission_classes cls) r.

(** [initial]: authenticate, then check the permissions. *)
Definition initial (cls : APIView) (r : HttpRequest) : result Request :=
  match perform_authentication (api_authentication_classes cls) r with
  | Raise e => Raise e
  | Ok u =>
      let req := mkRequest r u in
      match check_permissions cls req with
      | Raise e => Raise e
      | Ok _ => Ok req
      end
  end.

Definition get_authenticate_header (cls : APIView) : option string :=
  match api_authentication_classes cls with
  | a :: _ => authenticate_header a
  | [] => None
  end.

Definition exception_status (cls : APIView) (e : exn) : Z :=
  match e with
  | NotAuthenticated | AuthenticationFailed =>
      match get_authenticate_header cls with
      | Some _ => 401
      | None => 403
      end
  | PermissionDenied => 403
  | Http404 => 404
  | ValidationError => 400
  | MethodNotAllowed => 405
  | AttributeError | TypeError | IntegrityError | ValueError | AssertionError => 500
  end.

Definition handle_exception (cls : APIView) (e : exn) : Response :=
  mkResponse (exception_status cls e) (Detail e).

(** The response to a lookup that finds no row. *)
Definition not_found : Response := mkResponse 404 (Detail Http404).

(** Looking up and calling the handler for the request's method; an
    exception it raises becomes the response. *)
Definition call_handler {S : Type} (cls : APIView)
    (handlers : Method → option (View → M S Response))
    (req : Request) (kw : gmap string Z) : S → Response * S :=
  λ s,
    match handlers (method req) with
    | None => (handle_exception cls MethodNotAllowed, s)
    | Some handler =>
        match handler (mkView req kw) s with
        | (Ok resp, s') => (resp, s')
        | (Raise e, s') => (handle_exception cls e, s')
        end
    end.

(** [dispatch]: [initial] runs first, and only when it passes is the handler
    looked up and called. *)
Definition dispatch {S : Type} (cls : APIView)
    (handlers : Method → option (View → M S Response))
    (r : HttpRequest) (kw : gmap string Z) : S → Response * S :=
  λ s,
    match initial cls r with
    | Raise e => (handle_exception cls e, s)
    | Ok req => call_handler cls handlers req kw s
    end.

End rest_framework.

Module generics.
Import rest_framework GenericAPIView.

Section with_project.
Context `{Project}.

(** The gate's view of a generic view class: an authentication list the
    class does not set comes from the settings. *)
Definition as_APIView (cls : GenericAPIView.t) : APIView :=
  mkAPIView (permission_classes cls)
            (default DEFAULT_AUTHENTICATION_CLASSES (authentication_classes cls)).

(** [GenericAPIView.get_queryset] and [get_serializer_class] as inherited:
    they read the class attribute and assert that it is set. *)
Definition inherited_get_queryset (qs : option QuerySet) (self : View) : QuerySet :=
  match qs with
  | Some q => q
  | None => λ _, Raise AssertionError
  end.

Definition inherited_get_serializer_class (sc : option SerializerClass) (self : View)
  : result SerializerClass :=
  match sc with
  | Some c => Ok c
  | None => Raise AssertionError
  end.

(** *** Saving a serializer *)

(** Setting attributes on a row from a dictionary: [user] takes a user
    object, [is_published] a boolean, every other name is a column. *)
Definition set_attrs (h : Habit) (attrs : gmap string pyval) : result Habit :=
  match attrs !! "user" with
  | Some (PUser (AuthUser u)) =>
      match attrs !! "is_published" with
      | Some (PBool b) =>
          Ok (mkHabit u b (delete "user" (delete "is_published" attrs) ∪ fields h))
      | None =>
          Ok (mkHabit u (is_published h) (delete "user" attrs ∪ fields h))
      | Some _ => Raise ValueError
      end
  | None =>
      match attrs !! "is_published" with
      | Some (PBool b) =>
          Ok (mkHabit (user h) b (delete "is_published" attrs ∪ fields h))
      | None => Ok (mkHabit (user h) (is_published h) (attrs ∪ fields h))
      | Some _ => Raise ValueError
      end
  | Some _ => Raise ValueError
  end.

(** [Habit.objects.create] with the attributes as keywords: a row without an owner violates the
    table's constraint; the new row gets a primary key not yet in use. *)
Definition Habit_objects_create (attrs : gmap string pyval) : M HabitTable (Z * Habit) :=
  match attrs !! "user" with
  | None => raise IntegrityError
  | Some _ =>
      let! h := lift (set_attrs (mkHabit 0 is_published_default ∅) attrs) in
      let! objects := get_store in
      let pk := fresh (dom objects) in
      do! put_store (<[pk := h]> objects) in
      ret (pk, h)
  end.

(** [ModelSerializer.update]: set the validated attributes on the instance
    and save it under its primary key. *)
Definition instance_update (instance : Z * Habit) (attrs : gmap string pyval)
  : M HabitTable (Z * Habit) :=
  let! h := lift (set_attrs instance.2 attrs) in
  let! objects := get_store in
  do! put_store (<[instance.1 := h]> objects) in
  ret (instance.1, h).

(** [serializer.save] with keyword arguments: they are merged over the
    validated data (a key of both takes the keyword's value), then the instance is
    updated, or created when there is none. *)
Definition save (s : Serializer) (kw : gmap string pyval) : M HabitTable (Z * Habit) :=
  let attrs := kw ∪ validated_data s in
  match ser_instance s with
  | Some instance => instance_update instance attrs
  | None => Habit_objects_create attrs
  end.

Definition inherited_perform_create (self : View) (s : Serializer)
  : M HabitTable (Z * Habit) :=
  save s ∅.

Definition perform_update (self : View) (s : Serializer) : M HabitTable (Z * Habit) :=
  save s ∅.

(** *** Filtering, object lookup and the handlers *)

(** One filter backend on a queryset.  The field filter and the search do
    nothing on a view without their [..._fields] attribute; ordering does not
    change which rows a queryset holds. *)
Definition apply_backend (cls : GenericAPIView.t) (b : FilterBackend)
    (params : gmap string string) (qs : HabitTable) : result HabitTable :=
  match b with
  | DjangoFilterBackend =>
      match filterset_fields cls with
      | None => Ok qs
      | Some fs => filter_by_fields fs params qs
      end
  | SearchFilter =>
      match search_fields cls with
      | None => Ok qs
      | Some fs => search_by_fields fs params qs
      end
  | OrderingFilter => Ok qs
  end.

Fixpoint filter_queryset_loop (cls : GenericAPIView.t) (backends : list FilterBackend)
    (params : gmap string string) (qs : HabitTable) : result HabitTable :=
  match backends with
  | [] => Ok qs
  | b :: rest =>
      match apply_backend cls b params qs with
      | Ok qs' => filter_queryset_loop cls rest params qs'
      | Raise e => Raise e
      end
  end.

Definition filter_queryset (cls : GenericAPIView.t) (self : View) (qs : HabitTable)
  : result HabitTable :=
  filter_queryset_loop cls (default DEFAULT_FILTER_BACKENDS (filter_backends cls))
                       (query_params (request self)) qs.

(** [get_object]: the row of the filtered queryset whose primary key is the
    URL's [pk], or [Http404].  The object permissions of both permission
    classes allow every object. *)
Definition get_object (cls : GenericAPIView.t) (self : View) : M HabitTable (Z * Habit) :=
  let! objects := get_store in
  let! qs := lift (get_queryset cls self objects) in
  let! qs := lift (filter_queryset cls self qs) in
  match kwargs self !! "pk" with
  | None => raise AssertionError
  | Some pk =>
      match qs !! pk with
      | Some h => ret (pk, h)
      | None => raise Http404
      end
  end.

(** [create], from the point where [get_serializer] has the class: validate
    the request's data with it, save, and render the new row with it. *)
Definition create_with (cls : GenericAPIView.t) (self : View) (sc : SerializerClass)
  : M HabitTable Response :=
  let! vd := lift (run_validation sc None false (data (request self))) in
  let! instance := perform_create cls self (mkSerializer sc None vd) in
  ret (mkResponse 201 (Object sc instance.1 instance.2)).

Definition create (cls : GenericAPIView.t) (self : View) : M HabitTable Response :=
  let! sc := lift (get_serializer_class cls self) in
  create_with cls self sc.

Definition list_ (cls : GenericAPIView.t) (self : View) : M HabitTable Response :=
  let! objects := get_store in
  let! qs := lift (get_queryset cls self objects) in
  let! qs := lift (filter_queryset cls self qs) in
  let! page :=
    lift (match pagination_class cls with
          | Some p => paginate_queryset p (query_params (request self)) qs
          | None => Ok (map_to_list qs)
          end) in
  let! sc := lift (get_serializer_class cls self) in
  ret (mkResponse 200 (Page sc page)).

Definition retrieve (cls : GenericAPIView.t) (self : View) : M HabitTable Response :=
  let! instance := get_object cls self in
  let! sc := lift (get_serializer_class cls self) in
  ret (mkResponse 200 (Object sc instance.1 instance.2)).

(** [update], from the point where the object is found and [get_serializer]
    has the class: validate the request's data against the object with it,
    save, and render the saved row with it. *)
Definition update_with (partial : bool) (self : View) (instance : Z * Habit)
    (sc : SerializerClass) : M HabitTable Response :=
  let! vd := lift (run_validation sc (Some instance) partial (data (request self))) in
  let! instance := perform_update self (mkSerializer sc (Some instance) vd) in
  ret (mkResponse 200 (Object sc instance.1 instance.2)).

Definition update (cls : GenericAPIView.t) (partial : bool) (self : View)
  : M HabitTable Response :=
  let! instance := get_object cls self in
  let! sc := lift (get_serializer_class cls self) in
  update_with partial self instance sc.

Definition destroy (cls : GenericAPIView.t) (self : View) : M HabitTable Response :=
  let! instance := get_object cls self in
  let! objects := get_store in
  do! put_store (delete instance.1 objects) in
  ret (mkResponse 204 NoBody).

Definition options (cls : GenericAPIView.t) (self : View) : M HabitTable Response :=
  ret (mkResponse 200 Metadata).

(** The handler a generic view has for a method: [post] on a create view,
    [get] (and with it [head]) on a list or retrieve view, [put] and [patch]
    on an update view, [delete] on a destroy view, [options] on all. *)
Definition handlers (cls : GenericAPIView.t) (m : Method)
  : option (View → M HabitTable Response) :=
  match m, base cls with
  | OPTIONS, _ => Some (options cls)
  | POST, CreateAPIView => Some (create cls)
  | (GET | HEAD), ListAPIView => Some (list_ cls)
  | (GET | HEAD), RetrieveAPIView => Some (retrieve cls)
  | PUT, UpdateAPIView => Some (update cls false)
  | PATCH, UpdateAPIView => Some (update cls true)
  | DELETE, DestroyAPIView => Some (destroy cls)
  | _, _ => None
  end.

(** A request to a view class: the response and the table after it. *)
Definition as_view (cls : GenericAPIView.t) (r : HttpRequest) (kw : gmap string Z)
  : HabitTable → Response * HabitTable :=
  dispatch (as_APIView cls) (handlers cls) r kw.

End with_project.
End generics.

(** ** [habits/views.py] *)

Module views.
Import rest_framework generics.

Module HabitCreateAPIView.
Section with_project.
Context `{Project}.

Definition permission_classes : list Permission := [IsAuthenticated].

Definition get_serializer_class (self : View) : result SerializerClass :=
  match py_get (data (request self)) "is_pleasant_habit" with
  | Raise e => Raise e
  | Ok v =>
      if truthy v then Ok HabitUsefulCreateUpdateSerializer
      else Ok HabitPleasantCreateUpdateSerializer
  end.

(** [serializer.save(user=self.request.user)] *)
Definition perform_create (self : View) (serializer : Serializer)
  : M HabitTable (Z * Habit) :=
  save serializer {[ "user" := PUser (request_user (request self)) ]}.

Definition cls : GenericAPIView.t := {|
  GenericAPIView.base := CreateAPIView;
  GenericAPIView.permission_classes := permission_classes;
  GenericAPIView.authentication_classes := None;
  GenericAPIView.queryset := None;
  GenericAPIView.serializer_class := None;
  GenericAPIView.pagination_class := None;
  GenericAPIView.filter_backends := None;
  GenericAPIView.filterset_fields := None;
  GenericAPIView.search_fields := None;
  GenericAPIView.ordering_fields := None;
  GenericAPIView.get_queryset := inherited_get_queryset None;
  GenericAPIView.get_serializer_class := get_serializer_class;
  GenericAPIView.perform_create := perform_create
|}.

End with_project.
End HabitCreateAPIView.

Module HabitListAPIView.
Section with_project.
Context `{Project}.

Definition permission_classes : list Permission := [IsAuthenticated].
Definition serializer_class : SerializerClass := HabitListRetrieveSerializer.
Definition pagination_class : Paginator := HabitPaginator.

Definition filter_backends : list FilterBackend :=
  [DjangoFilterBackend; SearchFilter; OrderingFilter].
Definition filterset_fields : FieldsAttr := AttrStr "__all__".
Definition search_fields : FieldsAttr := AttrStr "__all__".
Definition ordering_fields : FieldsAttr := AttrTuple ["id"].

(** [Habit.objects.filter(user=self.request.user)] *)
Definition get_queryset (self : View) : QuerySet :=
  Habit_objects_filter (Q_user (request_user (request self))).

Definition cls : GenericAPIView.t := {|
  GenericAPIView.base := ListAPIView;
  GenericAPIView.permission_classes := permission_classes;
  GenericAPIView.authentication_classes := None;
  GenericAPIView.queryset := None;
  GenericAPIView.serializer_class := Some serializer_class;
  GenericAPIView.pagination_class := Some pagination_class;
  GenericAPIView.filter_backends := Some filter_backends;
  GenericAPIView.filterset_fields := Some filterset_fields;
  GenericAPIView.search_fields := Some search_fields;
  GenericAPIView.ordering_fields := Some ordering_fields;
  GenericAPIView.get_queryset := get_queryset;
  GenericAPIView.get_serializer_class := inherited_get_serializer_class (Some serializer_class);
  GenericAPIView.perform_create := inherited_perform_create
|}.

End with_project.
End HabitListAPIView.

Module HabitPublicListAPIView.
Section with_project.
Context `{Project}.

Definition permission_classes : list Permission := [IsAuthenticated].
Definition serializer_class : SerializerClass := HabitListRetrieveSerializer.
Definition pagination_class : Paginator := HabitPaginator.

(** [Habit.objects.filter(is_published=True)] *)
Definition queryset : QuerySet := Habit_objects_filter (Q_is_published true).

Definition filter_backends : list FilterBackend :=
  [DjangoFilterBackend; SearchFilter; OrderingFilter].
Definition filterset_fields : FieldsAttr := AttrStr "__all__".
Definition search_fields : FieldsAttr := AttrStr "__all__".
Definition ordering_fields : FieldsAttr := AttrTuple ["id"].

Definition cls : GenericAPIView.t := {|
  GenericAPIView.base := ListAPIView;
  GenericAPIView.permission_classes := permission_classes;
  GenericAPIView.authentication_classes := None;
  GenericAPIView.queryset := Some queryset;
  GenericAPIView.serializer_class := Some serializer_class;
  GenericAPIView.pagination_class := Some pagination_class;
  GenericAPIView.filter_backends := Some filter_backends;
  GenericAPIView.filterset_fields := Some filterset_fields;
  GenericAPIView.search_fields := Some search_fields;
  GenericAPIView.ordering_fields := Some ordering_fields;
  GenericAPIView.get_queryset := inherited_get_queryset (Some queryset);
  GenericAPIView.get_serializer_class := inherited_get_serializer_class (Some serializer_class);
  GenericAPIView.perform_create := inherited_perform_create
|}.

End with_project.
End HabitPublicListAPIView.

Module HabitRetrieveAPIView.
Section with_project.
Context `{Project}.

Definition permission_classes : list Permission := [IsAuthenticated].
Definition serializer_class : SerializerClass := HabitListRetrieveSerializer.

(** [Habit.objects.filter(Q(is_published=True) | Q(user=self.request.user))] *)
Definition get_queryset (self : View) : QuerySet :=
  Habit_objects_filter
    (Q_or (Q_is_published true) (Q_user (request_user (request self)))).

Definition cls : GenericAPIView.t := {|
  GenericAPIView.base := RetrieveAPIView;
  GenericAPIView.permission_classes := permission_classes;
  GenericAPIView.authentication_classes := None;
  GenericAPIView.queryset := None;
  GenericAPIView.serializer_class := Some serializer_class;
  GenericAPIView.pagination_class := None;
  GenericAPIView.filter_backends := None;
  GenericAPIView.filterset_fields := None;
  GenericAPIView.search_fields := None;
  GenericAPIView.ordering_fields := None;
  GenericAPIView.get_queryset := get_queryset;
  GenericAPIView.get_serializer_class := inherited_get_serializer_class (Some serializer_class);
  GenericAPIView.perform_create := inherited_perform_create
|}.

End with_project.
End HabitRetrieveAPIView.

Module HabitUpdateAPIView.
Section with_project.
Context `{Project}.

Definition permission_classes : list Permission := [IsAuthenticated].

(** [Habit.objects.filter(user=self.request.user)] *)
Definition get_queryset (self : View) : QuerySet :=
  Habit_objects_filter (Q_user (request_user (request self))).

Definition get_serializer_class (self : View) : result SerializerClass :=
  match py_get (data (request self)) "is_pleasant_habit" with
  | Raise e => Raise e
  | Ok v =>
      if truthy v then Ok HabitUsefulCreateUpdateSerializer
      else Ok HabitPleasantCreateUpdateSerializer
  end.

Definition cls : GenericAPIView.t := {|
  GenericAPIView.base := UpdateAPIView;
  GenericAPIView.permission_classes := permission_classes;
  GenericAPIView.authentication_classes := None;
  GenericAPIView.queryset := None;
  GenericAPIView.serializer_class := None;
  GenericAPIView.pagination_class := None;
  GenericAPIView.filter_backends := None;
  GenericAPIView.filterset_fields := None;
  GenericAPIView.search_fields := None;
  GenericAPIView.ordering_fields := None;
  GenericAPIView.get_queryset := get_queryset;
  GenericAPIView.get_serializer_class := get_serializer_class;
  GenericAPIView.perform_create := inherited_perform_create
|}.

End with_project.
End HabitUpdateAPIView.

Module HabitDestroyAPIView.
Section with_project.
Context `{Project}.

Definition permission_classes : list Permission := [IsAuthenticated].

(** [Habit.objects.filter(user=self.request.user)] *)
Definition get_queryset (self : View) : QuerySet :=
  Habit_objects_filter (Q_user (request_user (request self))).

Definition cls : GenericAPIView.t := {|
  GenericAPIView.base := DestroyAPIView;
  GenericAPIView.permission_classes := permission_classes;
  GenericAPIView.authentication_classes := None;
  GenericAPIView.queryset := None;
  GenericAPIView.serializer_class := None;
  GenericAPIView.pagination_class := None;
  GenericAPIView.filter_backends := None;
  GenericAPIView.filterset_fields := None;
  GenericAPIView.search_fields := None;
  GenericAPIView.ordering_fields := None;
  GenericAPIView.get_queryset := get_queryset;
  GenericAPIView.get_serializer_class := inherited_get_serializer_class None;
  GenericAPIView.perform_create := inherited_perform_create
|}.

End with_project.
End HabitDestroyAPIView.

End views.

(** ** [users/urls.py] *)

Module urls.

(** The views the routes name: five from [users/views.py] and the token
    scheme's two. *)
Inductive UserView : Type :=
  | UserCreateAPIView
  | UserListAPIView
  | UserRetrieveAPIView
  | UserUpdateAPIView
  | UserDestroyAPIView
  | TokenObtainPairView
  | TokenRefreshView.

#[global] Instance UserView_eq_dec : EqDecision UserView.
Proof. solve_decision. Defined.

(** A route is literal text and converters; the source's routes use the
    [int] converter only, written [<int:name>]. *)
Inductive Part : Type :=
  | Lit (s : string)
  | IntConv (name : string).

Inductive RouteState : Type :=
  | InLit (acc : string)
  | InConverter (acc : string)
  | InName (conv acc : string).

Definition snoc (s : string) (c : ascii) : string := s +:+ String c "".

Definition lit (acc : string) (rest : list Part) : list Part :=
  if String.eqb acc "" then rest else Lit acc :: rest.

(** The parts of a route string; [None] for a route that is malformed or
    uses another converter. *)
Fixpoint route_parts (st : RouteState) (s : string) : option (list Part) :=
  match s, st with
  | "", InLit acc => Some (lit acc [])
  | "", _ => None
  | String c s', InLit acc =>
      if Ascii.eqb c "<"
      then lit acc <$> route_parts (InConverter "") s'
      else route_parts (InLit (snoc acc c)) s'
  | String c s', InConverter acc =>
      if Ascii.eqb c ":" then route_parts (InName acc "") s'
      else if Ascii.eqb c ">" then None
      else route_parts (InConverter (snoc acc c)) s'
  | String c s', InName conv acc =>
      if Ascii.eqb c ">"
      then if String.eqb conv "int"
           then cons (IntConv acc) <$> route_parts (InLit "") s'
           else None
      else route_parts (InName conv (snoc acc c)) s'
  end.

Record URLPattern : Type := path {
  route : string;
  view : UserView;
  name : string
}.

Definition urlpatterns : list URLPattern := [
  path "create/" UserCreateAPIView "users_create";
  path "" UserListAPIView "users_list";
  path "<int:pk>/" UserRetrieveAPIView "users_get";
  path "update/<int:pk>/" UserUpdateAPIView "users_update";
  path "delete/<int:pk>/" UserDestroyAPIView "users_delete";
  path "token/" TokenObtainPairView "token_obtain_pair";
  path "token/refresh/" TokenRefreshView "token_refresh"
].

(** *** Matching a path *)

(** The value of a decimal digit, by its character code: the codes 48 to 57
    are the digits 0 to 9. *)
Definition digit_value (c : ascii) : option Z :=
  let code := Z.of_N (N_of_ascii c) in
  if Z.leb 48 code && Z.leb code 57 then Some (code - 48) else None.

Fixpoint strip_prefix (p s : string) : option string :=
  match p, s with
  | "", _ => Some s
  | String a p', String b s' => if Ascii.eqb a b then strip_prefix p' s' else None
  | String _ _, "" => None
  end.

(** The [int] converter at the head of [s]: one or more digits, as many as
    the rest of the route allows, the longest run first; its value is the
    number the digits spell.  [k] matches the rest of the route. *)
Fixpoint match_int (k : string → option (gmap string Z)) (name : string)
    (acc : Z) (s : string) : option (gmap string Z) :=
  match s with
  | "" => None
  | String c s' =>
      match digit_value c with
      | None => None
      | Some d =>
          let n := 10 * acc + d in
          match match_int k name n s' with
          | Some kw => Some kw
          | None => (λ kw, <[name := n]> kw) <$> k s'
          end
      end
  end.

(** A path matches a route when the route's parts consume all of it. *)
Fixpoint match_parts (parts : list Part) (s : string) : option (gmap string Z) :=
  match parts with
  | [] => if String.eqb s "" then Some ∅ else None
  | Lit l :: rest =>
      match strip_prefix l s with
      | Some s' => match_parts rest s'
      | None => None
      end
  | IntConv name :: rest => match_int (match_parts rest) name 0 s
  end.

Definition match_route (p : URLPattern) (s : string) : option (gmap string Z) :=
  match route_parts (InLit "") (route p) with
  | Some parts => match_parts parts s
  | None => None
  end.

(** The first pattern that matches decides. *)
Fixpoint resolve (patterns : list URLPattern) (s : string)
  : option (UserView * gmap string Z) :=
  match patterns with
  | [] => None
  | p :: rest =>
      match match_route p s with
      | Some kw => Some (view p, kw)
      | None => resolve rest s
      end
  end.

(** *** The routing table as the spec lists it *)

(** The number a run of decimal digits spells after the digits read so far;
    [None] when a character is no digit. *)
Fixpoint number (acc : Z) (s : string) : option Z :=
  match s with
  | "" => Some acc
  | String c s' =>
      match digit_value c with
      | Some d => number (10 * acc + d) s'
      | None => None
      end
  end.

(** An identifier in a path: one or more decimal digits. *)
Definition parse_id (s : string) : option Z :=
  if String.eqb s "" then None else number 0 s.

(** The spec's table of the user resource, path by path: which view a path
    reaches and with which identifier. *)
Inductive spec_route : string → UserView → gmap string Z → Prop :=
  | route_create : spec_route "create/" UserCreateAPIView ∅
  | route_list : spec_route "" UserListAPIView ∅
  | route_retrieve id n :
      parse_id id = Some n →
      spec_route (id +:+ "/") UserRetrieveAPIView {[ "pk" := n ]}
  | route_update id n :
      parse_id id = Some n →
      spec_route ("update/" +:+ id +:+ "/") UserUpdateAPIView {[ "pk" := n ]}
  | route_delete id n :
      parse_id id = Some n →
      spec_route ("delete/" +:+ id +:+ "/") UserDestroyAPIView {[ "pk" := n ]}
  | route_token : spec_route "token/" TokenObtainPairView ∅
  | route_token_refresh : spec_route "token/refresh/" TokenRefreshView ∅.

End urls.

(** ** The endpoints of the system *)

Module endpoints.
Import rest_framework generics urls.

Inductive HabitView : Type :=
  | Create
  | ListMine
  | ListPublic
  | Retrieve
  | Update
  | Destroy.

Definition class_of `{Project} (v : HabitView) : GenericAPIView.t :=
  match v with
  | Create => views.HabitCreateAPIView.cls
  | ListMine => views.HabitListAPIView.cls
  | ListPublic => views.HabitPublicListAPIView.cls
  | Retrieve => views.HabitRetrieveAPIView.cls
  | Update => views.HabitUpdateAPIView.cls
  | Destroy => views.HabitDestroyAPIView.cls
  end.

Inductive Endpoint : Type :=
  | Habits (v : HabitView)
  | Users (v : UserView).

(** Modelled from the spec: [users/views.py] is not among the sources.  By
    the spec's interface table, user creation needs no authentication and
    the user list, retrieve, update and delete views need it.  The two token
    views are the token scheme's own; they set no permission class. *)
Definition user_permission_classes (v : UserView) : list Permission :=
  match v with
  | UserCreateAPIView => [AllowAny]
  | UserListAPIView | UserRetrieveAPIView | UserUpdateAPIView | UserDestroyAPIView =>
      [IsAuthenticated]
  | TokenObtainPairView | TokenRefreshView => []
  end.

(** Modelled from the spec: no user view of the spec changes how a request
    is authenticated, so the five take the default; the token views
    authenticate nothing, they are where a token is obtained. *)
Definition user_authentication_classes (v : UserView) : list Authenticator :=
  match v with
  | TokenObtainPairView | TokenRefreshView => []
  | _ => DEFAULT_AUTHENTICATION_CLASSES
  end.

Definition api `{Project} (e : Endpoint) : APIView :=
  match e with
  | Habits v => as_APIView (class_of v)
  | Users v => mkAPIView (user_permission_classes v) (user_authentication_classes v)
  end.

(** The three endpoints the spec excepts from the authentication gate. *)
Definition open_endpoint (e : Endpoint) : bool :=
  match e with
  | Users (UserCreateAPIView | TokenObtainPairView | TokenRefreshView) => true
  | _ => false
  end.

(** Whether requests to a view are narrowed by field filters, by search and
    ordered on request: the backend is among the view's filter backends and
    the view sets the fields it works on. *)
Definition supports_filters `{Project} (cls : GenericAPIView.t) : bool :=
  let backends :=
    default DEFAULT_FILTER_BACKENDS (GenericAPIView.filter_backends cls) in
  bool_decide (DjangoFilterBackend ∈ backends)
  && bool_decide (is_Some (GenericAPIView.filterset_fields cls))
  && bool_decide (SearchFilter ∈ backends)
  && bool_decide (is_Some (GenericAPIView.search_fields cls))
  && bool_decide (OrderingFilter ∈ backends)
  && bool_decide (GenericAPIView.ordering_fields cls = Some (AttrTuple ["id"])).

End endpoints.

(** ** A sample project

    One choice of what the two source files leave open, to run the views on
    concrete requests: every mapping validates to itself, rows are
    unpublished by default, pages hold all rows, the settings name no filter
    backend, the field filter understands the [is_published] parameter and
    the search keeps every row. *)

Module sample.

Definition project : Project := {|
  run_validation := λ _ _ _ d,
    match d with
    | PDict m => Ok m
    | _ => Raise ValidationError
    end;
  is_published_default := false;
  paginate_queryset := λ _ _ qs, Ok (map_to_list qs);
  DEFAULT_FILTER_BACKENDS := [];
  filter_by_fields := λ _ params qs,
    match params !! "is_published" with
    | Some "true" => Ok (filter (λ row, is_published row.2 = true) qs)
    | Some "false" => Ok (filter (λ row, is_published row.2 = false) qs)
    | _ => Ok qs
    end;
  search_by_fields := λ _ _ qs, Ok qs
|}.

(** Two users, 1 and 2, and three habits: habit 10 of user 1 is private,
    habit 11 of user 1 is published, habit 20 of user 2 is private. *)
Definition habits : HabitTable :=
  <[10 := mkHabit 1 false ∅]> (<[11 := mkHabit 1 true ∅]> (<[20 := mkHabit 2 false ∅]> ∅)).

Definition http_request (m : Method) (a : Authorization) (d : pyval) : HttpRequest :=
  mkHttpRequest m a ∅ d.

End sample.

(** * Properties *)

Import rest_framework generics views endpoints.

(** ** Querysets and object lookup *)

Section scoping.
Context `{Project}.

Lemma Habit_objects_filter_lookup (q : Q) (objects : HabitTable) :
  Q_check q = Ok tt →
  ∃ qs, Habit_objects_filter q objects = Ok qs
        ∧ ∀ pk h, qs !! pk = Some h ↔ objects !! pk = Some h ∧ Q_matches q h = true.
Proof.
  intros Hq. eexists. split.
  - unfold Habit_objects_filter. rewrite Hq. reflexivity.
  - intros pk h. apply map_lookup_filter_Some.
Qed.

Lemma filter_queryset_loop_unset cls backends params (qs : HabitTable) :
  GenericAPIView.filterset_fields cls = None →
  GenericAPIView.search_fields cls = None →
  filter_queryset_loop cls backends params qs = Ok qs.
Proof.
  intros Hf Hs. induction backends as [|b rest IH]; [reflexivity|].
  simpl. destruct b; simpl; rewrite ?Hf, ?Hs; exact IH.
Qed.

Lemma filter_queryset_unset cls self (qs : HabitTable) :
  GenericAPIView.filterset_fields cls = None →
  GenericAPIView.search_fields cls = None →
  filter_queryset cls self qs = Ok qs.
Proof. intros. unfold filter_queryset. by apply filter_queryset_loop_unset. Qed.

(** On a view without filter fields, [get_object] answers with the row of
    the table under the URL's key when the view's query selects it, and with
    [Http404] otherwise; the table is left as it was. *)
Lemma get_object_scoped cls (q : Q) req pk (objects : HabitTable) :
  GenericAPIView.get_queryset cls (mkView req {[ "pk" := pk ]}) = Habit_objects_filter q →
  Q_check q = Ok tt →
  GenericAPIView.filterset_fields cls = None →
  GenericAPIView.search_fields cls = None →
  get_object cls (mkView req {[ "pk" := pk ]}) objects =
    (match objects !! pk with
     | Some h => if Q_matches q h then Ok (pk, h) else Raise Http404
     | None => Raise Http404
     end, objects).
Proof.
  intros Hqs Hq Hf Hs.
  unfold get_object, bind, get_store, lift. rewrite Hqs.
  unfold Habit_objects_filter. rewrite Hq.
  rewrite filter_queryset_unset by done. simpl.
  rewrite lookup_singleton_eq.
  destruct (objects !! pk) as [h|] eqn:Hpk.
  - destruct (Q_matches q h) eqn:Hm.
    + erewrite map_lookup_filter_Some_2; [reflexivity|exact Hpk|exact Hm].
    + rewrite (proj2 (map_lookup_filter_None _ _ _)); [reflexivity|].
      right. intros h' Hh'. simpl. rewrite Hpk in Hh'. injection Hh' as <-.
      rewrite Hm. discriminate.
  - rewrite (proj2 (map_lookup_filter_None _ _ _)); [reflexivity|].
    left. exact Hpk.
Qed.

Lemma initial_valid_token (cls : APIView) (r : HttpRequest) (R : Z) :
  api_authentication_classes cls = [JWTAuthentication] →
  api_permission_classes cls = [IsAuthenticated] →
  http_authorization r = ValidToken R →
  initial cls r = Ok (mkRequest r (AuthUser R)).
Proof.
  intros Ha Hp Hr. unfold initial, check_permissions. rewrite Ha, Hp. simpl.
  rewrite Hr. reflexivity.
Qed.

Lemma Q_user_other (R : Z) (h : Habit) :
  R ≠ user h → Q_matches (Q_user (AuthUser R)) h = false.
Proof.
  intros Hne. simpl. apply bool_decide_eq_false. intros Heq. congruence.
Qed.

Lemma Q_user_own (h : Habit) : Q_matches (Q_user (AuthUser (user h))) h = true.
Proof. simpl. by apply bool_decide_eq_true. Qed.

End scoping.

(** ** Who can see and change a habit *)

Section visibility.
Context `{Project}.

Lemma retrieve_view (r : HttpRequest) (R pk : Z) (objects : HabitTable) :
  http_authorization r = ValidToken R →
  http_method r = GET →
  as_view HabitRetrieveAPIView.cls r {[ "pk" := pk ]} objects =
    (match objects !! pk with
     | Some h =>
         if is_published h || bool_decide (user h = R)
         then mkResponse 200 (Object HabitListRetrieveSerializer pk h)
         else not_found
     | None => not_found
     end, objects).
Proof.
  intros Ha Hm. unfold as_view, dispatch.
  rewrite (initial_valid_token _ r R) by done.
  unfold call_handler, method. simpl. rewrite Hm. simpl.
  unfold retrieve, bind.
  rewrite (get_object_scoped _ (Q_or (Q_is_published true) (Q_user (AuthUser R))))
    by done.
  destruct (objects !! pk) as [h|]; [|reflexivity].
  simpl. destruct (is_published h); simpl; [reflexivity|].
  rewrite (bool_decide_ext (AuthUser (user h) = AuthUser R) (user h = R))
    by (split; congruence).
  destruct (bool_decide (user h = R)); reflexivity.
Qed.

Lemma update_view_foreign (r : HttpRequest) (R pk : Z) (objects : HabitTable) :
  http_authorization r = ValidToken R →
  http_method r = PUT ∨ http_method r = PATCH →
  (∀ h, objects !! pk = Some h → R ≠ user h) →
  as_view HabitUpdateAPIView.cls r {[ "pk" := pk ]} objects = (not_found, objects).
Proof.
  intros Ha Hm Hforeign. unfold as_view, dispatch.
  rewrite (initial_valid_token _ r R) by done.
  unfold call_handler, method. simpl.
  assert (update HabitUpdateAPIView.cls false
            (mkView (mkRequest r (AuthUser R)) {[ "pk" := pk ]}) objects
          = (Raise Http404, objects)
          ∧ update HabitUpdateAPIView.cls true
            (mkView (mkRequest r (AuthUser R)) {[ "pk" := pk ]}) objects
          = (Raise Http404, objects)) as [Hput Hpatch].
  { unfold update, bind.
    rewrite (get_object_scoped _ (Q_user (AuthUser R))) by done.
    destruct (objects !! pk) as [h|] eqn:Hpk; [|done].
    rewrite Q_user_other by auto. done. }
  destruct Hm as [-> | ->]; simpl; [rewrite Hput | rewrite Hpatch]; reflexivity.
Qed.

Lemma destroy_view_foreign (r : HttpRequest) (R pk : Z) (objects : HabitTable) :
  http_authorization r = ValidToken R →
  http_method r = DELETE →
  (∀ h, objects !! pk = Some h → R ≠ user h) →
  as_view HabitDestroyAPIView.cls r {[ "pk" := pk ]} objects = (not_found, objects).
Proof.
  intros Ha Hm Hforeign. unfold as_view, dispatch.
  rewrite (initial_valid_token _ r R) by done.
  unfold call_handler, method. simpl. rewrite Hm. simpl.
  unfold destroy, bind.
  rewrite (get_object_scoped _ (Q_user (AuthUser R))) by done.
  destruct (objects !! pk) as [h|] eqn:Hpk; [|done].
  rewrite Q_user_other by auto. done.
Qed.

(** C1.  A habit [h] stored under [pk] and a requester [R] who is
    authenticated and is not its owner: when [h] is not published, [R]'s
    retrieve request for it gets 404; whether or not [h] is published, [R]'s
    update ([PUT] or [PATCH]) and delete requests for it get 404, not 403.
    The table is unchanged in every case. *)
Theorem foreign_habit_not_found (objects : HabitTable) (pk : Z) (h : Habit)
    (R : Z) (r : HttpRequest) :
  objects !! pk = Some h →
  http_authorization r = ValidToken R →
  R ≠ user h →
  (is_published h = false → http_method r = GET →
     as_view HabitRetrieveAPIView.cls r {[ "pk" := pk ]} objects = (not_found, objects))
  ∧ (http_method r = PUT ∨ http_method r = PATCH →
     as_view HabitUpdateAPIView.cls r {[ "pk" := pk ]} objects = (not_found, objects))
  ∧ (http_method r = DELETE →
     as_view HabitDestroyAPIView.cls r {[ "pk" := pk ]} objects = (not_found, objects)).
Proof.
  intros Hpk Ha Hne. repeat split.
  - intros Hprivate Hm. rewrite (retrieve_view r R) by done.
    rewrite Hpk, Hprivate. simpl.
    rewrite bool_decide_eq_false_2 by congruence. reflexivity.
  - intros Hm. apply (update_view_foreign r R); [done..|].
    intros h' Hh'. congruence.
  - intros Hm. apply (destroy_view_foreign r R); [done..|].
    intros h' Hh'. congruence.
Qed.

(** C2.  A habit [h] stored under [pk] and an authenticated requester [R]:
    the retrieve request answers 200 with [h] exactly when [h] is published
    or [R] owns it, and answers 404 otherwise. *)
Theorem retrieve_iff_published_or_own (objects : HabitTable) (pk : Z) (h : Habit)
    (R : Z) (r : HttpRequest) :
  objects !! pk = Some h →
  http_authorization r = ValidToken R →
  http_method r = GET →
  let out := as_view HabitRetrieveAPIView.cls r {[ "pk" := pk ]} objects in
  (out = (mkResponse 200 (Object HabitListRetrieveSerializer pk h), objects)
     ↔ is_published h = true ∨ user h = R)
  ∧ (¬ (is_published h = true ∨ user h = R) → out = (not_found, objects)).
Proof.
  intros Hpk Ha Hm out. subst out.
  rewrite (retrieve_view r R) by done. rewrite Hpk.
  destruct (is_published h); simpl.
  - split; [split; auto | intros []; auto].
  - destruct (bool_decide_reflect (user h = R)) as [Heq|Hne].
    + split; [split; auto | intros []; auto].
    + split.
      * split; [discriminate | intros [? | ?]; [discriminate | contradiction]].
      * reflexivity.
Qed.

End visibility.

Section visibility_witnesses.
#[local] Existing Instance sample.project.

Lemma foreign_habit_not_found_witness :
  as_view HabitRetrieveAPIView.cls
    (sample.http_request GET (ValidToken 2) PNone) {[ "pk" := 10 ]} sample.habits
    = (not_found, sample.habits)
  ∧ as_view HabitUpdateAPIView.cls
      (sample.http_request PATCH (ValidToken 2) PNone) {[ "pk" := 11 ]} sample.habits
    = (not_found, sample.habits)
  ∧ as_view HabitDestroyAPIView.cls
      (sample.http_request DELETE (ValidToken 2) PNone) {[ "pk" := 11 ]} sample.habits
    = (not_found, sample.habits).
Proof.
  split; [|split].
  - apply (proj1 (foreign_habit_not_found sample.habits 10
                    (mkHabit 1 false ∅) 2 (sample.http_request GET (ValidToken 2) PNone)
                    eq_refl eq_refl ltac:(discriminate)));
      reflexivity.
  - apply (proj1 (proj2 (foreign_habit_not_found sample.habits 11
                    (mkHabit 1 true ∅) 2 (sample.http_request PATCH (ValidToken 2) PNone)
                    eq_refl eq_refl ltac:(discriminate)))).
    right. reflexivity.
  - apply (proj2 (proj2 (foreign_habit_not_found sample.habits 11
                    (mkHabit 1 true ∅) 2 (sample.http_request DELETE (ValidToken 2) PNone)
                    eq_refl eq_refl ltac:(discriminate)))).
    reflexivity.
Defined.

Lemma retrieve_iff_published_or_own_witness :
  as_view HabitRetrieveAPIView.cls
    (sample.http_request GET (ValidToken 2) PNone) {[ "pk" := 11 ]} sample.habits
    = (mkResponse 200 (Object HabitListRetrieveSerializer 11 (mkHabit 1 true ∅)),
       sample.habits).
Proof.
  apply (proj1 (retrieve_iff_published_or_own sample.habits 11
                  (mkHabit 1 true ∅) 2 (sample.http_request GET (ValidToken 2) PNone)
                  eq_refl eq_refl eq_refl)).
  left. reflexivity.
Defined.

End visibility_witnesses.

(** ** The list scopes and the scope of update and delete *)

Section scopes.
Context `{Project}.

(** C4.  For a request of user [U], the queryset of the list-mine view holds
    exactly the rows of the table owned by [U], and the queryset of the
    list-public view holds exactly the published rows. *)
Theorem list_scopes_exact (objects : HabitTable) (U : Z) (req : Request)
    (kw : gmap string Z) :
  request_user req = AuthUser U →
  (∃ qs, GenericAPIView.get_queryset HabitListAPIView.cls (mkView req kw) objects = Ok qs
         ∧ ∀ pk h, qs !! pk = Some h ↔ objects !! pk = Some h ∧ user h = U)
  ∧ (∃ qs, GenericAPIView.get_queryset HabitPublicListAPIView.cls (mkView req kw) objects
           = Ok qs
         ∧ ∀ pk h, qs !! pk = Some h ↔ objects !! pk = Some h ∧ is_published h = true).
Proof.
  intros HU. split.
  - destruct (Habit_objects_filter_lookup (Q_user (AuthUser U)) objects eq_refl)
      as (qs & Hqs & Hin).
    exists qs. split.
    + simpl. unfold HabitListAPIView.get_queryset. simpl. rewrite HU. exact Hqs.
    + intros pk h. rewrite Hin. simpl. rewrite bool_decide_eq_true.
      split; intros [? ?]; split; congruence.
  - destruct (Habit_objects_filter_lookup (Q_is_published true) objects eq_refl)
      as (qs & Hqs & Hin).
    exists qs. split; [exact Hqs|].
    intros pk h. rewrite Hin. simpl. by destruct (is_published h).
Qed.

Lemma get_object_mine cls req pk (objects : HabitTable) (h : Habit) :
  GenericAPIView.get_queryset cls (mkView req {[ "pk" := pk ]})
    = Habit_objects_filter (Q_user (request_user req)) →
  GenericAPIView.filterset_fields cls = None →
  GenericAPIView.search_fields cls = None →
  (get_object cls (mkView req {[ "pk" := pk ]}) objects).1 = Ok (pk, h)
  ↔ ∃ qs, Habit_objects_filter (Q_user (request_user req)) objects = Ok qs
          ∧ qs !! pk = Some h.
Proof.
  intros Hqs Hf Hs. destruct (request_user req) as [|U] eqn:HU.
  - unfold get_object, bind, get_store, lift. rewrite Hqs. simpl.
    split; [discriminate | intros (qs & [=] & _)].
  - rewrite (get_object_scoped cls (Q_user (AuthUser U))) by done. cbn [fst].
    destruct (Habit_objects_filter_lookup (Q_user (AuthUser U)) objects eq_refl)
      as (qs & Hfilter & Hin).
    rewrite Hfilter. split.
    + intros Hget. exists qs. split; [reflexivity|]. apply Hin.
      destruct (objects !! pk) as [h'|]; [|discriminate].
      destruct (Q_matches (Q_user (AuthUser U)) h') eqn:Hm; [|discriminate].
      injection Hget as <-. done.
    + intros (qs' & [= <-] & Hlook). apply Hin in Hlook as [-> ->]. reflexivity.
Qed.

(** C10.  The list-mine, update and delete views build the same queryset;
    so a row is the object of an update request exactly when it is the
    object of a delete request, and exactly when the list-mine queryset of
    the same request holds it under the same key. *)
Theorem mine_scopes_agree :
  HabitListAPIView.get_queryset = HabitUpdateAPIView.get_queryset
  ∧ HabitUpdateAPIView.get_queryset = HabitDestroyAPIView.get_queryset
  ∧ ∀ (req : Request) (pk : Z) (h : Habit) (objects : HabitTable),
      let self := mkView req {[ "pk" := pk ]} in
      ((get_object HabitUpdateAPIView.cls self objects).1 = Ok (pk, h)
         ↔ (get_object HabitDestroyAPIView.cls self objects).1 = Ok (pk, h))
      ∧ ((get_object HabitDestroyAPIView.cls self objects).1 = Ok (pk, h)
         ↔ ∃ qs, HabitListAPIView.get_queryset self objects = Ok qs
                 ∧ qs !! pk = Some h).
Proof.
  split; [reflexivity|]. split; [reflexivity|].
  intros req pk h objects self. subst self.
  rewrite (get_object_mine HabitUpdateAPIView.cls) by done.
  rewrite (get_object_mine HabitDestroyAPIView.cls) by done.
  split; reflexivity.
Qed.

End scopes.

Section scopes_witnesses.
#[local] Existing Instance sample.project.

Lemma list_scopes_exact_witness :
  (∃ qs, HabitListAPIView.get_queryset
           (mkView (mkRequest (sample.http_request GET (ValidToken 1) PNone) (AuthUser 1)) ∅)
           sample.habits = Ok qs
         ∧ ∀ pk h, qs !! pk = Some h ↔ sample.habits !! pk = Some h ∧ user h = 1)
  ∧ (∃ qs, HabitPublicListAPIView.queryset sample.habits = Ok qs
         ∧ ∀ pk h, qs !! pk = Some h
                   ↔ sample.habits !! pk = Some h ∧ is_published h = true).
Proof.
  exact (list_scopes_exact sample.habits 1
           (mkRequest (sample.http_request GET (ValidToken 1) PNone) (AuthUser 1)) ∅
           eq_refl).
Defined.

End scopes_witnesses.

(** ** Creating and updating *)

Section writing.
Context `{Project}.

Lemma save_kwargs_user (U : Z) (vd : gmap string pyval) :
  ({[ "user" := PUser (AuthUser U) ]} ∪ vd) !! "user" = Some (PUser (AuthUser U)).
Proof. apply lookup_union_Some_l, lookup_singleton_eq. Qed.

Lemma save_kwargs_other (U : Z) (vd : gmap string pyval) (k : string) :
  k ≠ "user" → ({[ "user" := PUser (AuthUser U) ]} ∪ vd) !! k = vd !! k.
Proof. intros Hk. apply lookup_union_r. by apply lookup_singleton_ne. Qed.

Lemma set_attrs_user (h0 h : Habit) (attrs : gmap string pyval) (U : Z) :
  attrs !! "user" = Some (PUser (AuthUser U)) →
  set_attrs h0 attrs = Ok h →
  user h = U.
Proof.
  unfold set_attrs. intros ->.
  destruct (attrs !! "is_published") as [[]|]; intros [= <-]; reflexivity.
Qed.

Lemma set_attrs_total (h0 : Habit) (attrs : gmap string pyval) (U : Z) :
  attrs !! "user" = Some (PUser (AuthUser U)) →
  attrs !! "is_published" = None ∨ (∃ b, attrs !! "is_published" = Some (PBool b)) →
  ∃ h, set_attrs h0 attrs = Ok h.
Proof.
  unfold set_attrs. intros -> [-> | [b ->]]; eauto.
Qed.

(** [perform_create] of the create view stores one new row, owned by the
    requester, or fails and stores nothing. *)
Lemma perform_create_owner (self : View) (sc : SerializerClass)
    (vd : gmap string pyval) (U : Z) (objects : HabitTable) :
  request_user (request self) = AuthUser U →
  match HabitCreateAPIView.perform_create self (mkSerializer sc None vd) objects with
  | (Ok (pk, h), objects') =>
      user h = U ∧ objects !! pk = None ∧ objects' = <[pk := h]> objects
  | (Raise _, objects') => objects' = objects
  end.
Proof.
  intros HU. unfold HabitCreateAPIView.perform_create, save, Habit_objects_create.
  rewrite HU. cbn [ser_instance validated_data]. rewrite save_kwargs_user.
  unfold bind, lift, get_store, put_store, ret.
  destruct (set_attrs _ _) as [h|e] eqn:Hset; [|reflexivity].
  split; [|split; [|reflexivity]].
  - eapply set_attrs_user; [|exact Hset]. apply save_kwargs_user.
  - apply not_elem_of_dom, is_fresh.
Qed.

Lemma exception_status_not_success (cls : APIView) (e : exn) :
  status_code (handle_exception cls e) ≠ 201
  ∧ status_code (handle_exception cls e) ≠ 200.
Proof.
  destruct e; simpl; try (split; discriminate).
  all: destruct (get_authenticate_header cls); split; discriminate.
Qed.

(** The create view on a [POST] of an authenticated user: the class the view
    picks, then the framework's [create_with]. *)
Lemma create_view (r : HttpRequest) (U : Z) (kw : gmap string Z) (objects : HabitTable) :
  http_authorization r = ValidToken U →
  http_method r = POST →
  let self := mkView (mkRequest r (AuthUser U)) kw in
  let api := as_APIView HabitCreateAPIView.cls in
  as_view HabitCreateAPIView.cls r kw objects =
    match HabitCreateAPIView.get_serializer_class self with
    | Raise e => (handle_exception api e, objects)
    | Ok sc =>
        match create_with HabitCreateAPIView.cls self sc objects with
        | (Ok resp, objects') => (resp, objects')
        | (Raise e, objects') => (handle_exception api e, objects')
        end
    end.
Proof.
  intros Ha Hm self api. unfold as_view, dispatch.
  rewrite (initial_valid_token _ r U) by done.
  unfold call_handler, method. simpl. rewrite Hm. simpl.
  unfold create, bind, lift. simpl. fold self.
  destruct (HabitCreateAPIView.get_serializer_class self); reflexivity.
Qed.

(** C3.  A [POST] to the create view by the authenticated user [U], with any
    body: either the response is 201 and the table gained exactly one row,
    under a key that was free, whose owner is [U]; or the response is not
    201 and the table is unchanged.  The response is 201 whenever the body
    passes the chosen serializer's validation with a boolean or absent
    [is_published], whatever the validated data say about [user]. *)
Theorem created_habit_owner (objects : HabitTable) (U : Z) (r : HttpRequest)
    (kw : gmap string Z) :
  http_authorization r = ValidToken U →
  http_method r = POST →
  let out := as_view HabitCreateAPIView.cls r kw objects in
  ((status_code out.1 = 201
    ∧ ∃ sc pk h, body out.1 = Object sc pk h ∧ objects !! pk = None
                 ∧ out.2 = <[pk := h]> objects ∧ user h = U)
   ∨ (status_code out.1 ≠ 201 ∧ out.2 = objects))
  ∧ ∀ sc vd,
      HabitCreateAPIView.get_serializer_class (mkView (mkRequest r (AuthUser U)) kw)
        = Ok sc →
      run_validation sc None false (http_data r) = Ok vd →
      vd !! "is_published" = None ∨ (∃ b, vd !! "is_published" = Some (PBool b)) →
      status_code out.1 = 201.
Proof.
  intros Ha Hm out. subst out. rewrite (create_view r U) by done.
  set (self := mkView (mkRequest r (AuthUser U)) kw).
  set (api := as_APIView HabitCreateAPIView.cls).
  destruct (HabitCreateAPIView.get_serializer_class self) as [sc|e] eqn:Hsc.
  2:{ split; [|discriminate]. right. split; [|reflexivity].
      apply exception_status_not_success. }
  unfold create_with, bind, lift, data. cbn [request http self].
  destruct (run_validation sc None false (http_data r)) as [vd|e] eqn:Hvd.
  2:{ split; [|intros ? ? [= <-]; congruence]. right. split; [|reflexivity].
      apply exception_status_not_success. }
  cbn [GenericAPIView.perform_create HabitCreateAPIView.cls].
  pose proof (perform_create_owner self sc vd U objects eq_refl) as Hpc.
  split.
  - destruct (HabitCreateAPIView.perform_create self _ objects)
      as [[[pk h]|e] objects'].
    + left. destruct Hpc as (Hu & Hfree & ->). split; [reflexivity|].
      exists sc, pk, h. auto.
    + right. subst objects'. split; [|reflexivity].
      apply exception_status_not_success.
  - intros sc' vd' [= <-] Hvd' Hpub. rewrite Hvd in Hvd'. injection Hvd' as <-.
    clear Hpc. unfold HabitCreateAPIView.perform_create, save, Habit_objects_create.
    cbn [ser_instance validated_data request request_user self].
    rewrite save_kwargs_user.
    destruct (set_attrs_total (mkHabit 0 is_published_default ∅)
                ({[ "user" := PUser (AuthUser U) ]} ∪ vd) U) as [h Hh].
    + apply save_kwargs_user.
    + rewrite save_kwargs_other by discriminate. exact Hpub.
    + unfold bind, lift. rewrite Hh. reflexivity.
Qed.

(** Both write views pick the class by the truth value of what
    [request.data.get('is_pleasant_habit')] returns. *)
Lemma get_serializer_class_dict (self : View) (d : gmap string pyval) :
  data (request self) = PDict d →
  let chosen :=
    if truthy (default PNone (d !! "is_pleasant_habit"))
    then HabitUsefulCreateUpdateSerializer
    else HabitPleasantCreateUpdateSerializer in
  HabitCreateAPIView.get_serializer_class self = Ok chosen
  ∧ HabitUpdateAPIView.get_serializer_class self = Ok chosen.
Proof.
  intros Hd chosen. subst chosen.
  unfold HabitCreateAPIView.get_serializer_class,
    HabitUpdateAPIView.get_serializer_class.
  rewrite Hd. simpl.
  destruct (truthy (default PNone (d !! "is_pleasant_habit"))); split; reflexivity.
Qed.

Lemma create_uses_class (self : View) (sc : SerializerClass) (objects : HabitTable) :
  HabitCreateAPIView.get_serializer_class self = Ok sc →
  create HabitCreateAPIView.cls self objects
    = create_with HabitCreateAPIView.cls self sc objects.
Proof.
  intros Hsc. unfold create, bind, lift.
  cbn [GenericAPIView.get_serializer_class HabitCreateAPIView.cls].
  rewrite Hsc. reflexivity.
Qed.

Lemma update_uses_class (self : View) (sc : SerializerClass) (partial : bool)
    (objects : HabitTable) :
  HabitUpdateAPIView.get_serializer_class self = Ok sc →
  update HabitUpdateAPIView.cls partial self objects
    = (let! instance := get_object HabitUpdateAPIView.cls self in
       update_with partial self instance sc) objects.
Proof.
  intros Hsc. unfold update, bind, lift.
  cbn [GenericAPIView.get_serializer_class HabitUpdateAPIView.cls].
  rewrite Hsc. reflexivity.
Qed.

(** C6.  On a request whose body is a mapping with a boolean
    [is_pleasant_habit] [b] (absent counts as false), the create view and
    the update view both pick the useful-habit serializer when [b] is true
    and the pleasant-habit serializer otherwise, and that class is the one
    the [create] and [update] handlers validate and render with. *)
Theorem serializer_by_flag (self : View) (d : gmap string pyval) (b : bool) :
  data (request self) = PDict d →
  d !! "is_pleasant_habit" = Some (PBool b)
    ∨ (d !! "is_pleasant_habit" = None ∧ b = false) →
  let chosen :=
    if b then HabitUsefulCreateUpdateSerializer
    else HabitPleasantCreateUpdateSerializer in
  HabitCreateAPIView.get_serializer_class self = Ok chosen
  ∧ HabitUpdateAPIView.get_serializer_class self = Ok chosen
  ∧ (∀ objects,
       create HabitCreateAPIView.cls self objects
       = create_with HabitCreateAPIView.cls self chosen objects)
  ∧ (∀ partial objects,
       update HabitUpdateAPIView.cls partial self objects
       = (let! instance := get_object HabitUpdateAPIView.cls self in
          update_with partial self instance chosen) objects).
Proof.
  intros Hd Hflag chosen.
  destruct (get_serializer_class_dict self d Hd) as [Hc Hu].
  assert (truthy (default PNone (d !! "is_pleasant_habit")) = b) as Hb.
  { destruct Hflag as [-> | [-> ->]]; reflexivity. }
  rewrite Hb in Hc, Hu. fold chosen in Hc, Hu.
  repeat split; [exact Hc | exact Hu | |].
  - intros objects. by apply create_uses_class.
  - intros partial objects. by apply update_uses_class.
Qed.

(** C9.  On a request whose body is a mapping, the class both write views
    pick is a function of the truth value of the body's [is_pleasant_habit]
    alone: the pleasant-habit serializer when the key is absent or its value
    is falsy, the useful-habit serializer when the value is truthy, as the
    string ["false"] is.  The update handler validates and renders with that
    class for every table and every object it finds: nothing of the stored
    row enters the choice. *)
Theorem serializer_by_truthiness (self : View) (d : gmap string pyval) :
  data (request self) = PDict d →
  let chosen :=
    if truthy (default PNone (d !! "is_pleasant_habit"))
    then HabitUsefulCreateUpdateSerializer
    else HabitPleasantCreateUpdateSerializer in
  HabitCreateAPIView.get_serializer_class self = Ok chosen
  ∧ HabitUpdateAPIView.get_serializer_class self = Ok chosen
  ∧ (d !! "is_pleasant_habit" = None → chosen = HabitPleasantCreateUpdateSerializer)
  ∧ (∀ v, d !! "is_pleasant_habit" = Some v →
          (truthy v = false → chosen = HabitPleasantCreateUpdateSerializer)
          ∧ (truthy v = true → chosen = HabitUsefulCreateUpdateSerializer))
  ∧ truthy (PStr "false") = true
  ∧ (∀ partial objects,
       update HabitUpdateAPIView.cls partial self objects
       = (let! instance := get_object HabitUpdateAPIView.cls self in
          update_with partial self instance chosen) objects).
Proof.
  intros Hd chosen.
  destruct (get_serializer_class_dict self d Hd) as [Hc Hu].
  fold chosen in Hc, Hu.
  split; [exact Hc|]. split; [exact Hu|]. split; [|split; [|split]].
  - intros Hnone. subst chosen. rewrite Hnone. reflexivity.
  - intros v Hv. subst chosen. rewrite Hv. simpl.
    split; intros ->; reflexivity.
  - reflexivity.
  - intros partial objects. by apply update_uses_class.
Qed.

End writing.

Section writing_witnesses.
#[local] Existing Instance sample.project.

(** User 2 posts a body that names user 1 as the owner: the row stored
    belongs to user 2. *)
Lemma created_habit_owner_witness :
  let r := sample.http_request POST (ValidToken 2)
             (PDict {[ "user" := PUser (AuthUser 1) ]}) in
  let out := as_view HabitCreateAPIView.cls r ∅ sample.habits in
  status_code out.1 = 201
  ∧ ((status_code out.1 = 201
      ∧ ∃ sc pk h, body out.1 = Object sc pk h ∧ sample.habits !! pk = None
                   ∧ out.2 = <[pk := h]> sample.habits ∧ user h = 2)
     ∨ (status_code out.1 ≠ 201 ∧ out.2 = sample.habits)).
Proof.
  intros r out.
  pose proof (created_habit_owner sample.habits 2 r ∅ eq_refl eq_refl) as [Hrow Hok].
  split; [|exact Hrow].
  apply (Hok HabitPleasantCreateUpdateSerializer {[ "user" := PUser (AuthUser 1) ]});
    [reflexivity | reflexivity | left; reflexivity].
Defined.

Lemma serializer_by_flag_witness :
  let self := mkView (mkRequest (sample.http_request POST (ValidToken 1)
                                   (PDict {[ "is_pleasant_habit" := PBool true ]}))
                                (AuthUser 1)) ∅ in
  HabitCreateAPIView.get_serializer_class self = Ok HabitUsefulCreateUpdateSerializer
  ∧ HabitUpdateAPIView.get_serializer_class self = Ok HabitUsefulCreateUpdateSerializer.
Proof.
  intros self.
  pose proof (serializer_by_flag self {[ "is_pleasant_habit" := PBool true ]} true
                eq_refl (or_introl eq_refl)) as (Hc & Hu & _).
  split; [exact Hc | exact Hu].
Defined.

Lemma serializer_by_truthiness_witness :
  let self := mkView (mkRequest (sample.http_request PUT (ValidToken 1)
                                   (PDict {[ "is_pleasant_habit" := PStr "false" ]}))
                                (AuthUser 1)) {[ "pk" := 10 ]} in
  HabitCreateAPIView.get_serializer_class self = Ok HabitUsefulCreateUpdateSerializer
  ∧ HabitUpdateAPIView.get_serializer_class self = Ok HabitUsefulCreateUpdateSerializer.
Proof.
  intros self.
  pose proof (serializer_by_truthiness self {[ "is_pleasant_habit" := PStr "false" ]}
                eq_refl) as (Hc & Hu & _).
  split; [exact Hc | exact Hu].
Defined.

End writing_witnesses.

(** ** The authentication gate *)

Section gate.
Context `{Project}.

Lemma api_closed (e : Endpoint) :
  open_endpoint e = false →
  api_authentication_classes (api e) = [JWTAuthentication]
  ∧ api_permission_classes (api e) = [IsAuthenticated].
Proof.
  destruct e as [v|v]; destruct v; simpl; intros Hopen;
    try discriminate; split; reflexivity.
Qed.

Lemma initial_closed (cls : APIView) (r : HttpRequest) :
  api_authentication_classes cls = [JWTAuthentication] →
  api_permission_classes cls = [IsAuthenticated] →
  (∀ pk, http_authorization r ≠ ValidToken pk) →
  initial cls r =
    Raise (match http_authorization r with
           | InvalidToken => AuthenticationFailed
           | _ => NotAuthenticated
           end)
  ∧ get_authenticate_header cls = Some "Bearer realm=api".
Proof.
  intros Ha Hp Hr. unfold initial, check_permissions, get_authenticate_header,
    permission_denied.
  rewrite Ha, Hp. simpl.
  destruct (http_authorization r) as [| |pk] eqn:Hauth; simpl.
  - unfold permission_denied. rewrite Ha. split; reflexivity.
  - split; reflexivity.
  - exfalso. by apply (Hr pk).
Qed.

Lemma initial_open (e : Endpoint) (r : HttpRequest) :
  open_endpoint e = true →
  http_authorization r = NoToken →
  initial (api e) r = Ok (mkRequest r AnonymousUser).
Proof.
  destruct e as [v|v]; destruct v; simpl; intros Hopen Hr; try discriminate.
  - unfold initial. simpl. rewrite Hr. reflexivity.
  - reflexivity.
  - reflexivity.
Qed.

(** C5.  At every endpoint other than user creation, token obtain and token
    refresh, a request without a bearer token, or with one that does not
    verify, is answered 401 whatever the handlers are, and the store is
    untouched: no handler is called.  At the three other endpoints a request
    without a token passes the gate and reaches the handler as the anonymous
    user.  A habit view is dispatched this way with the handlers of its
    class. *)
Theorem unauthenticated_rejected (e : Endpoint) {S : Type}
    (handlers : Method → option (View → M S Response))
    (r : HttpRequest) (kw : gmap string Z) (s : S) :
  (open_endpoint e = false →
   (∀ pk, http_authorization r ≠ ValidToken pk) →
   dispatch (api e) handlers r kw s =
     (mkResponse 401 (Detail (match http_authorization r with
                              | InvalidToken => AuthenticationFailed
                              | _ => NotAuthenticated
                              end)), s))
  ∧ (open_endpoint e = true →
     http_authorization r = NoToken →
     dispatch (api e) handlers r kw s =
       call_handler (api e) handlers (mkRequest r AnonymousUser) kw s)
  ∧ (∀ v, as_view (class_of v) = dispatch (api (Habits v)) (generics.handlers (class_of v))).
Proof.
  split; [|split].
  - intros Hclosed Hr. destruct (api_closed e Hclosed) as [Ha Hp].
    destruct (initial_closed (api e) r Ha Hp Hr) as [Hinit Hheader].
    unfold dispatch. rewrite Hinit. unfold handle_exception.
    f_equal. f_equal.
    destruct (http_authorization r); simpl; rewrite Hheader; reflexivity.
  - intros Hopen Hr. unfold dispatch. rewrite (initial_open e r Hopen Hr).
    reflexivity.
  - reflexivity.
Qed.

End gate.

Section gate_witnesses.
#[local] Existing Instance sample.project.

Lemma unauthenticated_rejected_witness :
  as_view HabitDestroyAPIView.cls (sample.http_request DELETE InvalidToken PNone)
    {[ "pk" := 10 ]} sample.habits
    = (mkResponse 401 (Detail AuthenticationFailed), sample.habits)
  ∧ dispatch (api (Users urls.UserCreateAPIView)) (λ _, None)
      (sample.http_request POST NoToken PNone) ∅ tt
    = call_handler (api (Users urls.UserCreateAPIView)) (λ _, None)
        (mkRequest (sample.http_request POST NoToken PNone) AnonymousUser) ∅ tt.
Proof.
  split.
  - apply (proj1 (unauthenticated_rejected (Habits Destroy)
                    (generics.handlers HabitDestroyAPIView.cls)
                    (sample.http_request DELETE InvalidToken PNone)
                    {[ "pk" := 10 ]} sample.habits));
      [reflexivity | discriminate].
  - apply (proj1 (proj2 (unauthenticated_rejected (Users urls.UserCreateAPIView)
                           (λ _, None) (sample.http_request POST NoToken PNone) ∅ tt)));
      reflexivity.
Defined.

End gate_witnesses.

(** ** The user routes *)

Section routing.
Import urls.
#[local] Arguments String.append !s1 s2 : simpl nomatch.

Lemma string_eqb_empty (s : string) : String.eqb s "" = true ↔ s = "".
Proof. destruct s; simpl; split; intros; congruence. Qed.

Lemma strip_prefix_Some (p s rest : string) :
  strip_prefix p s = Some rest ↔ s = p +:+ rest.
Proof.
  revert s. induction p as [|a p IH]; intros s; simpl.
  - split; congruence.
  - destruct s as [|b s]; [split; discriminate|].
    destruct (Ascii.eqb_spec a b) as [->|Hne].
    + rewrite IH. split; congruence.
    + split; [discriminate | intros [= ? ?]; congruence].
Qed.

Lemma strip_prefix_app (p rest : string) : strip_prefix p (p +:+ rest) = Some rest.
Proof. by apply strip_prefix_Some. Qed.

Lemma append_empty_r (l : string) : l +:+ "" = l.
Proof. induction l; simpl; congruence. Qed.

Lemma append_longer (l : string) (c : ascii) (rest : string) :
  l +:+ String c rest ≠ l.
Proof. induction l as [|a l IH]; simpl; [discriminate|]. intros [= ?]. auto. Qed.

Lemma match_lit_end (l s : string) (kw : gmap string Z) :
  match_parts [Lit l] s = Some kw ↔ s = l ∧ kw = ∅.
Proof.
  simpl. destruct (strip_prefix l s) as [rest|] eqn:Hp.
  - apply strip_prefix_Some in Hp as ->.
    destruct rest as [|c rest]; simpl.
    + rewrite append_empty_r. split; [intros [= <-] | intros [_ ->]]; done.
    + split; [discriminate|]. intros [Heq _]. by apply append_longer in Heq.
  - split; [discriminate|]. intros [-> _].
    rewrite (proj2 (strip_prefix_Some l l "")) in Hp; [discriminate|].
    by rewrite append_empty_r.
Qed.

(** The [int] converter before a closing slash reads exactly the digits up
    to that slash. *)
Lemma match_int_slash (name : string) (acc : Z) (s : string) (kw : gmap string Z) :
  match_int (match_parts [Lit "/"]) name acc s = Some kw
  ↔ ∃ id n, s = id +:+ "/" ∧ id ≠ "" ∧ number acc id = Some n ∧ kw = {[ name := n ]}.
Proof.
  revert acc kw. induction s as [|c s IH]; intros acc kw.
  - simpl. split; [discriminate|]. intros (id & n & Hs & Hid & _).
    destruct id; [done | discriminate].
  - cbn [match_int]. destruct (digit_value c) as [d|] eqn:Hc.
    + destruct (match_int (match_parts [Lit "/"]) name (10 * acc + d) s) as [kw'|] eqn:Hm.
      * apply IH in Hm as (id & n & -> & Hid & Hn & ->).
        split.
        -- intros [= <-]. exists (String c id), n. simpl. rewrite Hc. done.
        -- intros (id' & n' & Hs & Hid' & Hn' & ->).
           destruct id' as [|c' id']; [done|]. simpl in Hs, Hn'.
           injection Hs as <- Hs. rewrite Hc in Hn'.
           destruct id' as [|c'' id''].
           ++ destruct id; [done|]. simpl in Hs. injection Hs as -> _.
              simpl in Hn. discriminate.
           ++ assert (match_int (match_parts [Lit "/"]) name (10 * acc + d)
                        (id +:+ "/") = Some {[ name := n' ]}) as Hm'.
              { apply IH. exists (String c'' id''), n'. done. }
              assert (match_int (match_parts [Lit "/"]) name (10 * acc + d)
                        (id +:+ "/") = Some {[ name := n ]}) as Hm''.
              { apply IH. exists id, n. done. }
              congruence.
      * split.
        -- destruct (match_parts [Lit "/"] s) as [kw0|] eqn:Hk; [|discriminate].
           apply match_lit_end in Hk as [-> ->]. intros [= <-].
           exists (String c ""), (10 * acc + d). simpl. rewrite Hc.
           rewrite insert_empty. done.
        -- intros (id & n & Hs & Hid & Hn & ->).
           destruct id as [|c' id]; [done|]. simpl in Hs, Hn.
           injection Hs as <- ->. rewrite Hc in Hn.
           destruct id as [|c'' id].
           ++ simpl in Hn. injection Hn as <-. simpl.
              rewrite insert_empty. done.
           ++ exfalso.
              assert (match_int (match_parts [Lit "/"]) name (10 * acc + d)
                        (String c'' id +:+ "/") = Some {[ name := n ]}) as Hm'.
              { apply IH. exists (String c'' id), n. done. }
              congruence.
    + split; [discriminate|]. intros (id & n & Hs & Hid & Hn & _).
      destruct id as [|c' id]; [done|]. simpl in Hs, Hn.
      injection Hs as <- _. rewrite Hc in Hn. discriminate.
Qed.

Lemma parse_id_Some (id : string) (n : Z) :
  parse_id id = Some n ↔ id ≠ "" ∧ number 0 id = Some n.
Proof.
  unfold parse_id. destruct id as [|c id]; simpl.
  - split; [discriminate | intros [? _]; done].
  - split; [intros Hn; split; [discriminate | exact Hn] | intros [_ Hn]; exact Hn].
Qed.

Lemma parse_id_head (id : string) (n : Z) :
  parse_id id = Some n →
  ∃ c rest d, id = String c rest ∧ digit_value c = Some d.
Proof.
  intros [Hid Hn]%parse_id_Some. destruct id as [|c rest]; [done|].
  simpl in Hn. destruct (digit_value c) as [d|] eqn:Hc; [|discriminate].
  by exists c, rest, d.
Qed.

Lemma match_id_slash (s : string) (kw : gmap string Z) :
  match_parts [IntConv "pk"; Lit "/"] s = Some kw
  ↔ ∃ id n, s = id +:+ "/" ∧ parse_id id = Some n ∧ kw = {[ "pk" := n ]}.
Proof.
  cbn [match_parts]. rewrite match_int_slash. split.
  - intros (id & n & -> & Hid & Hn & ->). exists id, n.
    rewrite parse_id_Some. done.
  - intros (id & n & -> & [Hid Hn]%parse_id_Some & ->). by exists id, n.
Qed.

Lemma match_prefix_id_slash (p s : string) (kw : gmap string Z) :
  match_parts [Lit p; IntConv "pk"; Lit "/"] s = Some kw
  ↔ ∃ id n, s = p +:+ id +:+ "/" ∧ parse_id id = Some n ∧ kw = {[ "pk" := n ]}.
Proof.
  change (match_parts [Lit p; IntConv "pk"; Lit "/"] s)
    with (match strip_prefix p s with
          | Some s' => match_parts [IntConv "pk"; Lit "/"] s'
          | None => None
          end).
  destruct (strip_prefix p s) as [s'|] eqn:Hp.
  - apply strip_prefix_Some in Hp as ->. rewrite match_id_slash. split.
    + intros (id & n & -> & Hn & ->). by exists id, n.
    + intros (id & n & Hs & Hn & ->). exists id, n. split; [|done].
      clear -Hs. induction p as [|a p IH]; simpl in Hs; [done|].
      injection Hs as Hs. auto.
  - split; [discriminate|]. intros (id & n & -> & _).
    by rewrite strip_prefix_app in Hp.
Qed.

Lemma resolve_skip (p : URLPattern) (rest : list URLPattern) (s : string) :
  (∀ kw, match_route p s ≠ Some kw) → resolve (p :: rest) s = resolve rest s.
Proof.
  intros Hno. simpl. destruct (match_route p s) as [kw|] eqn:Hm; [|reflexivity].
  by destruct (Hno kw).
Qed.

Lemma resolve_hit (p : URLPattern) (rest : list URLPattern) (s : string)
    (kw : gmap string Z) :
  match_route p s = Some kw → resolve (p :: rest) s = Some (view p, kw).
Proof. intros Hm. simpl. by rewrite Hm. Qed.

(** What each of the seven patterns matches. *)
Lemma match_route_lit (l nm : string) (v : UserView) (s : string) (kw : gmap string Z) :
  route_parts (InLit "") l = Some [Lit l] →
  match_route (path l v nm) s = Some kw ↔ s = l ∧ kw = ∅.
Proof. intros Hl. unfold match_route. simpl. rewrite Hl. apply match_lit_end. Qed.

Lemma match_route_empty (nm : string) (v : UserView) (s : string) (kw : gmap string Z) :
  match_route (path "" v nm) s = Some kw ↔ s = "" ∧ kw = ∅.
Proof.
  unfold match_route. simpl. destruct s; simpl.
  - split; [intros [= <-] | intros [_ ->]]; done.
  - split; [discriminate | intros [? _]; discriminate].
Qed.

Lemma match_route_id (nm : string) (v : UserView) (s : string) (kw : gmap string Z) :
  match_route (path "<int:pk>/" v nm) s = Some kw
  ↔ ∃ id n, s = id +:+ "/" ∧ parse_id id = Some n ∧ kw = {[ "pk" := n ]}.
Proof. apply match_id_slash. Qed.

Lemma match_route_prefix_id (p l nm : string) (v : UserView) (s : string)
    (kw : gmap string Z) :
  route_parts (InLit "") l = Some [Lit p; IntConv "pk"; Lit "/"] →
  match_route (path l v nm) s = Some kw
  ↔ ∃ id n, s = p +:+ id +:+ "/" ∧ parse_id id = Some n ∧ kw = {[ "pk" := n ]}.
Proof.
  intros Hl. unfold match_route. cbn [route]. rewrite Hl.
  apply match_prefix_id_slash.
Qed.

Lemma resolve_sound (s : string) (v : UserView) (kw : gmap string Z) :
  resolve urlpatterns s = Some (v, kw) → spec_route s v kw.
Proof.
  unfold urlpatterns. intros Hres.
  cbn [resolve] in Hres.
  destruct (match_route (path "create/" _ _) s) as [kw'|] eqn:H1.
  { injection Hres as <- <-. apply match_route_lit in H1 as [-> ->]; [|reflexivity].
    constructor. }
  destruct (match_route (path "" _ _) s) as [kw'|] eqn:H2.
  { injection Hres as <- <-. apply match_route_empty in H2 as [-> ->]. constructor. }
  destruct (match_route (path "<int:pk>/" _ _) s) as [kw'|] eqn:H3.
  { injection Hres as <- <-. apply match_route_id in H3 as (id & n & -> & Hn & ->).
    by constructor. }
  destruct (match_route (path "update/<int:pk>/" _ _) s) as [kw'|] eqn:H4.
  { injection Hres as <- <-.
    apply (match_route_prefix_id "update/") in H4 as (id & n & -> & Hn & ->);
      [|reflexivity].
    by constructor. }
  destruct (match_route (path "delete/<int:pk>/" _ _) s) as [kw'|] eqn:H5.
  { injection Hres as <- <-.
    apply (match_route_prefix_id "delete/") in H5 as (id & n & -> & Hn & ->);
      [|reflexivity].
    by constructor. }
  destruct (match_route (path "token/" _ _) s) as [kw'|] eqn:H6.
  { injection Hres as <- <-. apply match_route_lit in H6 as [-> ->]; [|reflexivity].
    constructor. }
  destruct (match_route (path "token/refresh/" _ _) s) as [kw'|] eqn:H7.
  { injection Hres as <- <-. apply match_route_lit in H7 as [-> ->]; [|reflexivity].
    constructor. }
  discriminate.
Qed.

(** A path that starts with a character that is no digit is no
    identifier followed by a slash. *)
Lemma not_id_slash (c : ascii) (rest : string) (nm : string) (v : UserView) :
  digit_value c = None →
  ∀ kw, match_route (path "<int:pk>/" v nm) (String c rest) ≠ Some kw.
Proof.
  intros Hc kw (id & n & Hs & Hn & _)%match_route_id.
  apply parse_id_head in Hn as (c' & rest' & d & -> & Hd).
  simpl in Hs. injection Hs as -> _. congruence.
Qed.

Lemma resolve_complete (s : string) (v : UserView) (kw : gmap string Z) :
  spec_route s v kw → resolve urlpatterns s = Some (v, kw).
Proof.
  unfold urlpatterns.
  destruct 1 as [| |id n Hn|id n Hn|id n Hn| |]; try reflexivity.
  - destruct (parse_id_head id n Hn) as (c & rest & d & -> & Hd).
    rewrite resolve_skip.
    2:{ intros kw [Hs _]%match_route_lit; [|reflexivity].
        simpl in Hs. injection Hs as -> _. discriminate. }
    rewrite resolve_skip.
    2:{ intros kw [Hs _]%match_route_empty. discriminate. }
    apply (resolve_hit (path "<int:pk>/" UserRetrieveAPIView "users_get")).
    apply match_route_id. by exists (String c rest), n.
  - cbn [String.append].
    rewrite resolve_skip.
    2:{ intros kw [Hs _]%match_route_lit; [|reflexivity]. discriminate. }
    rewrite resolve_skip.
    2:{ intros kw [Hs _]%match_route_empty. discriminate. }
    rewrite resolve_skip by (by apply not_id_slash).
    apply (resolve_hit (path "update/<int:pk>/" UserUpdateAPIView "users_update")).
    apply (match_route_prefix_id "update/"); [reflexivity|]. by exists id, n.
  - cbn [String.append].
    rewrite resolve_skip.
    2:{ intros kw [Hs _]%match_route_lit; [|reflexivity]. discriminate. }
    rewrite resolve_skip.
    2:{ intros kw [Hs _]%match_route_empty. discriminate. }
    rewrite resolve_skip by (by apply not_id_slash).
    rewrite resolve_skip.
    2:{ intros kw (id' & n' & Hs & _)%(match_route_prefix_id "update/");
          [|reflexivity].
        discriminate. }
    apply (resolve_hit (path "delete/<int:pk>/" UserDestroyAPIView "users_delete")).
    apply (match_route_prefix_id "delete/"); [reflexivity|]. by exists id, n.
Qed.

(** C8.  The routes of the user resource resolve a path exactly as the
    spec's table lists them: [create/] to user creation, the empty path to
    the user list, an identifier and a slash to user retrieve, [update/] or
    [delete/] with an identifier and a slash to user update or delete,
    [token/] to the token-pair view and [token/refresh/] to the token-refresh
    view; the identifier arrives as the keyword [pk], and no other path
    resolves. *)
Theorem user_routes (s : string) (v : UserView) (kw : gmap string Z) :
  resolve urlpatterns s = Some (v, kw) ↔ spec_route s v kw.
Proof. split; [apply resolve_sound | apply resolve_complete]. Qed.

End routing.

(** ** Filtering, search and ordering *)

Section filters.
Context `{Project}.

Lemma list_view_pipeline cls self (qs : HabitTable) :
  GenericAPIView.filter_backends cls
    = Some [DjangoFilterBackend; SearchFilter; OrderingFilter] →
  GenericAPIView.filterset_fields cls = Some (AttrStr "__all__") →
  GenericAPIView.search_fields cls = Some (AttrStr "__all__") →
  filter_queryset cls self qs =
    match filter_by_fields (AttrStr "__all__") (query_params (request self)) qs with
    | Ok qs' => search_by_fields (AttrStr "__all__") (query_params (request self)) qs'
    | Raise e => Raise e
    end.
Proof.
  intros Hb Hf Hs. unfold filter_queryset. rewrite Hb. simpl. rewrite Hf, Hs.
  destruct (filter_by_fields _ _ qs) as [qs'|e]; [|reflexivity].
  destruct (search_by_fields _ _ qs') as [qs''|e]; reflexivity.
Qed.

(** C7, as the code has it.  The list-mine and list-public views set the
    three filter backends with [filterset_fields = '__all__'],
    [search_fields = '__all__'] and [ordering_fields = ('id',)], and pass
    their queryset through the field filter and then the search.  The
    retrieve, update and delete views set none of the four attributes, and
    their queryset reaches the object lookup as it is, whatever the request's
    query parameters and the settings' default backends are. *)
Theorem filters_on_list_views_only (v : HabitView) (self : View) (qs : HabitTable) :
  match v with
  | Create => True
  | ListMine | ListPublic =>
      GenericAPIView.filter_backends (class_of v)
        = Some [DjangoFilterBackend; SearchFilter; OrderingFilter]
      ∧ GenericAPIView.filterset_fields (class_of v) = Some (AttrStr "__all__")
      ∧ GenericAPIView.search_fields (class_of v) = Some (AttrStr "__all__")
      ∧ GenericAPIView.ordering_fields (class_of v) = Some (AttrTuple ["id"])
      ∧ supports_filters (class_of v) = true
      ∧ filter_queryset (class_of v) self qs =
          match filter_by_fields (AttrStr "__all__") (query_params (request self)) qs with
          | Ok qs' =>
              search_by_fields (AttrStr "__all__") (query_params (request self)) qs'
          | Raise e => Raise e
          end
  | Retrieve | Update | Destroy =>
      GenericAPIView.filter_backends (class_of v) = None
      ∧ GenericAPIView.filterset_fields (class_of v) = None
      ∧ GenericAPIView.search_fields (class_of v) = None
      ∧ GenericAPIView.ordering_fields (class_of v) = None
      ∧ supports_filters (class_of v) = false
      ∧ filter_queryset (class_of v) self qs = Ok qs
  end.
Proof.
  destruct v; [exact I| | | | |]; repeat split;
    try reflexivity;
    try (by apply list_view_pipeline);
    try (by apply filter_queryset_unset).
  all: unfold supports_filters; simpl; apply andb_false_r.
Qed.

End filters.

(** C7, as the claim states it, fails: under no choice of what the sources
    leave open do all five views of the four scopes support the filters. *)
Lemma filters_not_on_every_scope :
  ¬ ∃ P : Project,
      ∀ v, v ∈ [ListMine; ListPublic; Retrieve; Update; Destroy] →
           @supports_filters P (@class_of P v) = true.
Proof.
  intros [P Hall].
  specialize (Hall Retrieve ltac:(set_solver)).
  unfold supports_filters in Hall. simpl in Hall.
  rewrite andb_false_r in Hall. discriminate.
Qed.

(** * Further properties of the views *)

Section effects.
Context `{Project}.

Lemma class_of_gate (v : HabitView) :
  api_authentication_classes (as_APIView (class_of v)) = [JWTAuthentication]
  ∧ api_permission_classes (as_APIView (class_of v)) = [IsAuthenticated].
Proof. destruct v; split; reflexivity. Qed.

Lemma as_view_authenticated (v : HabitView) (r : HttpRequest) (R : Z)
    (kw : gmap string Z) (objects : HabitTable) :
  http_authorization r = ValidToken R →
  as_view (class_of v) r kw objects =
    call_handler (as_APIView (class_of v)) (generics.handlers (class_of v))
      (mkRequest r (AuthUser R)) kw objects.
Proof.
  intros Ha. destruct (class_of_gate v) as [Hauth Hperm].
  unfold as_view, dispatch. by rewrite (initial_valid_token _ r R).
Qed.

Lemma as_view_unauthenticated (v : HabitView) (r : HttpRequest)
    (kw : gmap string Z) (objects : HabitTable) :
  (∀ R, http_authorization r ≠ ValidToken R) →
  (as_view (class_of v) r kw objects).2 = objects.
Proof.
  intros Hr. destruct (class_of_gate v) as [Hauth Hperm].
  destruct (initial_closed _ r Hauth Hperm Hr) as [Hinit _].
  unfold as_view, dispatch. by rewrite Hinit.
Qed.

(** Looking an object up reads the table and leaves it as it is. *)
Lemma get_object_reads cls (self : View) (objects : HabitTable) :
  (get_object cls self objects).2 = objects.
Proof.
  unfold get_object, bind, get_store, lift, raise, ret.
  destruct (GenericAPIView.get_queryset cls self objects) as [qs|e]; [|reflexivity].
  destruct (filter_queryset cls self qs) as [qs'|e]; [|reflexivity].
  destruct (kwargs self !! "pk") as [pk|]; [|reflexivity].
  destruct (qs' !! pk); reflexivity.
Qed.

Lemma call_handler_reads cls (handlers : Method → option (View → M HabitTable Response))
    (req : Request) (kw : gmap string Z) (objects : HabitTable) :
  (∀ handler, handlers (method req) = Some handler →
              (handler (mkView req kw) objects).2 = objects) →
  (call_handler cls handlers req kw objects).2 = objects.
Proof.
  intros Hreads. unfold call_handler.
  destruct (handlers (method req)) as [handler|] eqn:Hh; [|reflexivity].
  specialize (Hreads handler eq_refl).
  destruct (handler (mkView req kw) objects) as [[resp|e] objects']; exact Hreads.
Qed.

Lemma retrieve_reads cls (self : View) (objects : HabitTable) :
  (retrieve cls self objects).2 = objects.
Proof.
  unfold retrieve, bind. pose proof (get_object_reads cls self objects) as Hg.
  destruct (get_object cls self objects) as [[instance|e] objects']; simpl in Hg;
    subst objects'; [|reflexivity].
  unfold lift, ret. destruct (GenericAPIView.get_serializer_class cls self); reflexivity.
Qed.

Lemma list_reads cls (self : View) (objects : HabitTable) :
  (list_ cls self objects).2 = objects.
Proof.
  unfold list_, bind, get_store, lift, ret.
  destruct (GenericAPIView.get_queryset cls self objects) as [qs|e]; [|reflexivity].
  destruct (filter_queryset cls self qs) as [qs'|e]; [|reflexivity].
  destruct (match GenericAPIView.pagination_class cls with
            | Some p => paginate_queryset p (query_params (request self)) qs'
            | None => Ok (map_to_list qs')
            end) as [page|e]; [|reflexivity].
  destruct (GenericAPIView.get_serializer_class cls self); reflexivity.
Qed.

(** X1.  The retrieve view and the two list views never change the table:
    whatever the request is (any method, any credentials, any body, any URL
    keywords), the table after it is the table before it. *)
Theorem read_views_change_nothing (v : HabitView) (r : HttpRequest)
    (kw : gmap string Z) (objects : HabitTable) :
  match v with
  | Retrieve | ListMine | ListPublic => (as_view (class_of v) r kw objects).2 = objects
  | Create | Update | Destroy => True
  end.
Proof.
  assert (∀ v', (v' = Retrieve ∨ v' = ListMine ∨ v' = ListPublic) →
                (as_view (class_of v') r kw objects).2 = objects) as Hread.
  { intros v' Hv'.
    destruct (http_authorization r) as [| |R] eqn:Ha.
    - apply as_view_unauthenticated. intros R. congruence.
    - apply as_view_unauthenticated. intros R. congruence.
    - rewrite (as_view_authenticated v' r R) by done.
      apply call_handler_reads. intros handler Hh. unfold method in Hh. simpl in Hh.
      destruct Hv' as [-> | [-> | ->]];
        destruct (http_method r); unfold generics.handlers in Hh; simpl in Hh;
        simplify_eq;
        first [apply retrieve_reads | apply list_reads | reflexivity]. }
  destruct v; auto.
Qed.

Lemma call_handler_no_handler cls
    (handlers : Method → option (View → M HabitTable Response))
    (req : Request) (kw : gmap string Z) (objects : HabitTable) :
  handlers (method req) = None →
  call_handler cls handlers req kw objects
    = (handle_exception cls MethodNotAllowed, objects).
Proof. intros Hh. unfold call_handler. by rewrite Hh. Qed.

(** The destroy handler for an authenticated requester: the row under the
    URL's key goes when the requester owns it; otherwise [Http404]. *)
Lemma destroy_scoped (r : HttpRequest) (R pk : Z) (objects : HabitTable) :
  destroy HabitDestroyAPIView.cls
    (mkView (mkRequest r (AuthUser R)) {[ "pk" := pk ]}) objects =
  match objects !! pk with
  | Some h =>
      if bool_decide (user h = R)
      then (Ok (mkResponse 204 NoBody), delete pk objects)
      else (Raise Http404, objects)
  | None => (Raise Http404, objects)
  end.
Proof.
  unfold destroy, bind.
  rewrite (get_object_scoped _ (Q_user (AuthUser R))) by done.
  destruct (objects !! pk) as [h|]; [|reflexivity].
  simpl.
  rewrite (bool_decide_ext (AuthUser (user h) = AuthUser R) (user h = R))
    by (split; congruence).
  destruct (bool_decide (user h = R)); reflexivity.
Qed.

(** X2.  What a request to the destroy view does to the table.  A [DELETE]
    of an authenticated requester removes the row under the URL's key and
    answers 204 when the requester owns that row, and answers 404 and
    removes nothing when the row is another user's or there is no such row.
    Every other request (other methods, no or bad credentials) leaves the
    table as it is. *)
Theorem destroy_view_effect (r : HttpRequest) (pk : Z) (objects : HabitTable) :
  let out := as_view HabitDestroyAPIView.cls r {[ "pk" := pk ]} objects in
  match http_authorization r, http_method r, objects !! pk with
  | ValidToken R, DELETE, Some h =>
      if bool_decide (user h = R)
      then out = (mkResponse 204 NoBody, delete pk objects)
      else out = (not_found, objects)
  | ValidToken R, DELETE, None => out = (not_found, objects)
  | _, _, _ => out.2 = objects
  end.
Proof.
  intros out. subst out.
  destruct (http_authorization r) as [| |R] eqn:Ha.
  1, 2: assert ((as_view HabitDestroyAPIView.cls r {[ "pk" := pk ]} objects).2
                = objects) as Hsame
    by (apply (as_view_unauthenticated Destroy); intros R; congruence).
  1, 2: by destruct (http_method r), (objects !! pk).
  rewrite (as_view_authenticated Destroy r R) by done.
  destruct (http_method r) eqn:Hm.
  7:{ unfold call_handler, method. simpl. rewrite Hm. simpl.
      by destruct (objects !! pk). }
  5:{ unfold call_handler, method. simpl. rewrite Hm. simpl.
      rewrite destroy_scoped.
      destruct (objects !! pk) as [h|]; [|reflexivity].
      destruct (bool_decide (user h = R)); reflexivity. }
  all: rewrite call_handler_no_handler
         by (unfold method; simpl; rewrite Hm; reflexivity).
  all: by destruct (objects !! pk).
Qed.

(** X3.  What a request to the update view does to the table.  The table
    changes only on a [PUT] or [PATCH] of an authenticated requester who
    owns the row under the URL's key: then the response is 200 and exactly
    that row is replaced by the row the response shows.  No request adds or
    removes a row, and none touches another user's row. *)
Theorem update_view_effect (r : HttpRequest) (pk : Z) (objects : HabitTable) :
  let out := as_view HabitUpdateAPIView.cls r {[ "pk" := pk ]} objects in
  out.2 = objects
  ∨ ∃ R h h' sc,
      http_authorization r = ValidToken R
      ∧ (http_method r = PUT ∨ http_method r = PATCH)
      ∧ objects !! pk = Some h ∧ user h = R
      ∧ out = (mkResponse 200 (Object sc pk h'), <[pk := h']> objects).
Proof.
  intros out. subst out.
  destruct (http_authorization r) as [| |R] eqn:Ha.
  1, 2: left; apply (as_view_unauthenticated Update); intros R; congruence.
  rewrite (as_view_authenticated Update r R) by done.
  assert (∀ partial,
            let res := update HabitUpdateAPIView.cls partial
                         (mkView (mkRequest r (AuthUser R)) {[ "pk" := pk ]}) objects in
            res.2 = objects
            ∨ ∃ h h' sc, objects !! pk = Some h ∧ user h = R
                ∧ res = (Ok (mkResponse 200 (Object sc pk h')), <[pk := h']> objects))
    as Hupdate.
  { intros partial res. subst res. unfold update, bind.
    rewrite (get_object_scoped _ (Q_user (AuthUser R))) by done.
    destruct (objects !! pk) as [h|] eqn:Hpk; [|by left].
    simpl.
    rewrite (bool_decide_ext (AuthUser (user h) = AuthUser R) (user h = R))
      by (split; congruence).
    destruct (bool_decide_reflect (user h = R)) as [Hown|Hforeign]; [|by left].
    unfold lift.
    destruct (HabitUpdateAPIView.get_serializer_class _) as [sc|e]; [|by left].
    unfold update_with, bind, lift.
    destruct (run_validation sc _ partial _) as [vd|e]; [|by left].
    unfold perform_update, save, instance_update, bind, lift, get_store, put_store, ret.
    simpl.
    destruct (set_attrs h (∅ ∪ vd)) as [h'|e]; [|by left].
    right. by exists h, h', sc. }
  unfold call_handler, method. simpl.
  destruct (http_method r) eqn:Hm; simpl; try (by left).
  - destruct (Hupdate false) as [Hsame | (h & h' & sc & Hpk & Hown & Hres)].
    + left. by destruct (update _ _ _ _) as [[resp|e] objects'].
    + right. exists R, h, h', sc. rewrite Hres. auto.
  - destruct (Hupdate true) as [Hsame | (h & h' & sc & Hpk & Hown & Hres)].
    + left. by destruct (update _ _ _ _) as [[resp|e] objects'].
    + right. exists R, h, h', sc. rewrite Hres. auto.
Qed.

End effects.

Section composition.
Context `{Project}.

Lemma destroy_view_authenticated (r : HttpRequest) (R pk : Z) (objects : HabitTable) :
  http_authorization r = ValidToken R →
  http_method r = DELETE →
  as_view HabitDestroyAPIView.cls r {[ "pk" := pk ]} objects =
    match objects !! pk with
    | Some h =>
        if bool_decide (user h = R)
        then (mkResponse 204 NoBody, delete pk objects)
        else (not_found, objects)
    | None => (not_found, objects)
    end.
Proof.
  intros Ha Hm. change HabitDestroyAPIView.cls with (class_of Destroy).
  rewrite (as_view_authenticated Destroy r R) by done.
  unfold call_handler, method. simpl. rewrite Hm. simpl. rewrite destroy_scoped.
  destruct (objects !! pk) as [h|]; [|reflexivity].
  destruct (bool_decide (user h = R)); reflexivity.
Qed.

(** A [POST] of an authenticated user to the create view either stores one
    new row of that user under a free key, answering 201 with it, or stores
    nothing and answers something else. *)
Lemma create_view_outcome (objects : HabitTable) (U : Z) (r : HttpRequest)
    (kw : gmap string Z) :
  http_authorization r = ValidToken U →
  http_method r = POST →
  let out := as_view HabitCreateAPIView.cls r kw objects in
  (∃ sc pk h, out = (mkResponse 201 (Object sc pk h), <[pk := h]> objects)
              ∧ objects !! pk = None ∧ user h = U)
  ∨ (status_code out.1 ≠ 201 ∧ out.2 = objects).
Proof.
  intros Ha Hm out. subst out. rewrite (create_view r U) by done.
  set (self := mkView (mkRequest r (AuthUser U)) kw).
  destruct (HabitCreateAPIView.get_serializer_class self) as [sc|e].
  2:{ right. split; [apply exception_status_not_success | reflexivity]. }
  unfold create_with, bind, lift.
  destruct (run_validation sc None false _) as [vd|e].
  2:{ right. split; [apply exception_status_not_success | reflexivity]. }
  cbn [GenericAPIView.perform_create HabitCreateAPIView.cls].
  pose proof (perform_create_owner self sc vd U objects eq_refl) as Hpc.
  destruct (HabitCreateAPIView.perform_create self _ objects)
    as [[[pk h]|e] objects'].
  - left. destruct Hpc as (Hu & Hfree & ->). by exists sc, pk, h.
  - right. subst objects'. split; [apply exception_status_not_success | reflexivity].
Qed.

(** X4.  A habit just created can be read back.  After a [POST] of user [U]
    answered 201, the response names a key and a row such that a retrieve
    request for that key on the new table answers 200 with that very row to
    [U], and to any other authenticated user exactly when the row is
    published; and the row is in [U]'s list-mine queryset. *)
Theorem created_habit_retrievable (objects : HabitTable) (U : Z) (r : HttpRequest)
    (kw : gmap string Z) :
  http_authorization r = ValidToken U →
  http_method r = POST →
  let out := as_view HabitCreateAPIView.cls r kw objects in
  status_code out.1 = 201 →
  ∃ sc pk h,
    out.1 = mkResponse 201 (Object sc pk h)
    ∧ (∀ r' R', http_authorization r' = ValidToken R' → http_method r' = GET →
         as_view HabitRetrieveAPIView.cls r' {[ "pk" := pk ]} out.2 =
           (if is_published h || bool_decide (U = R')
            then mkResponse 200 (Object HabitListRetrieveSerializer pk h)
            else not_found, out.2))
    ∧ (∀ r' kw', ∃ qs,
         HabitListAPIView.get_queryset (mkView (mkRequest r' (AuthUser U)) kw') out.2
           = Ok qs ∧ qs !! pk = Some h).
Proof.
  intros Ha Hm out Hcreated.
  destruct (create_view_outcome objects U r kw Ha Hm)
    as [(sc & pk & h & Hout & Hfree & Hown) | [Hnot _]]; [|done].
  fold out in Hout. exists sc, pk, h. rewrite Hout. cbn [fst snd].
  split; [reflexivity|]. split.
  - intros r' R' Ha' Hm'. rewrite (retrieve_view r' R') by done.
    rewrite lookup_insert_eq. rewrite Hown.
    destruct (is_published h || bool_decide (U = R')); reflexivity.
  - intros r' kw'.
    destruct (Habit_objects_filter_lookup (Q_user (AuthUser U))
                (<[pk := h]> objects) eq_refl) as (qs & Hqs & Hin).
    exists qs. split; [exact Hqs|]. apply Hin. split.
    + apply lookup_insert_eq.
    + rewrite <- Hown. apply Q_user_own.
Qed.

(** X5.  Creating a habit and deleting it again restores the table.  After a
    [POST] of user [U] answered 201 with key [pk], a [DELETE] of [U] for
    [pk] answers 204 and leaves exactly the table from before the [POST]. *)
Theorem create_then_destroy (objects : HabitTable) (U : Z) (r r' : HttpRequest)
    (kw : gmap string Z) :
  http_authorization r = ValidToken U →
  http_method r = POST →
  http_authorization r' = ValidToken U →
  http_method r' = DELETE →
  let out := as_view HabitCreateAPIView.cls r kw objects in
  status_code out.1 = 201 →
  ∃ sc pk h,
    out.1 = mkResponse 201 (Object sc pk h)
    ∧ as_view HabitDestroyAPIView.cls r' {[ "pk" := pk ]} out.2
      = (mkResponse 204 NoBody, objects).
Proof.
  intros Ha Hm Ha' Hm' out Hcreated.
  destruct (create_view_outcome objects U r kw Ha Hm)
    as [(sc & pk & h & Hout & Hfree & Hown) | [Hnot _]]; [|done].
  fold out in Hout. exists sc, pk, h. rewrite Hout. cbn [fst snd].
  split; [reflexivity|].
  rewrite (destroy_view_authenticated r' U) by done.
  rewrite lookup_insert_eq, bool_decide_eq_true_2 by done.
  by rewrite delete_insert_id.
Qed.

(** X6.  A deleted habit is gone for everyone.  After a [DELETE] answered
    204, a retrieve and a further delete request for the same key, by any
    authenticated user, are answered 404 and change nothing. *)
Theorem destroyed_habit_not_found (objects : HabitTable) (pk : Z) (r : HttpRequest) :
  let out := as_view HabitDestroyAPIView.cls r {[ "pk" := pk ]} objects in
  out.1 = mkResponse 204 NoBody →
  ∀ r' R', http_authorization r' = ValidToken R' →
    (http_method r' = GET →
       as_view HabitRetrieveAPIView.cls r' {[ "pk" := pk ]} out.2 = (not_found, out.2))
    ∧ (http_method r' = DELETE →
       as_view HabitDestroyAPIView.cls r' {[ "pk" := pk ]} out.2 = (not_found, out.2)).
Proof.
  intros out Hgone r' R' Ha'.
  assert (out.2 !! pk = None) as Hnone.
  { subst out. destruct (http_authorization r) as [| |R] eqn:Ha.
    1, 2: exfalso;
      destruct (class_of_gate Destroy) as [Hauth Hperm];
      destruct (initial_closed _ r Hauth Hperm) as [Hinit Hheader];
        [intros R; congruence|];
      unfold as_view, dispatch in Hgone; simpl in Hinit, Hgone; rewrite Hinit in Hgone;
      simpl in Hgone; destruct (http_authorization r); discriminate.
    change HabitDestroyAPIView.cls with (class_of Destroy) in Hgone |- *.
    rewrite (as_view_authenticated Destroy r R) in Hgone |- * by done.
    unfold call_handler, method in Hgone |- *. simpl in Hgone |- *.
    destruct (http_method r); simpl in Hgone |- *; try discriminate.
    rewrite destroy_scoped in Hgone |- *.
    destruct (objects !! pk) as [h|]; [|discriminate].
    destruct (bool_decide (user h = R)); [|discriminate].
    apply lookup_delete_eq. }
  split; intros Hm'.
  - rewrite (retrieve_view r' R') by done. by rewrite Hnone.
  - rewrite (destroy_view_authenticated r' R') by done. by rewrite Hnone.
Qed.

(** X7.  A body that is no mapping has no [get]: for an authenticated
    requester, a [POST] to the create view with such a body, and a [PUT] or
    [PATCH] to the update view for a row the requester owns, are answered
    500 ([AttributeError]) and store nothing. *)
Theorem non_mapping_body_fails (objects : HabitTable) (R pk : Z) (r : HttpRequest) :
  http_authorization r = ValidToken R →
  (∀ d, http_data r ≠ PDict d) →
  (http_method r = POST →
     ∀ kw, as_view HabitCreateAPIView.cls r kw objects
           = (mkResponse 500 (Detail AttributeError), objects))
  ∧ (http_method r = PUT ∨ http_method r = PATCH →
     ∀ h, objects !! pk = Some h → user h = R →
          as_view HabitUpdateAPIView.cls r {[ "pk" := pk ]} objects
          = (mkResponse 500 (Detail AttributeError), objects)).
Proof.
  intros Ha Hbody.
  assert (∀ self, http (request self) = r →
            HabitCreateAPIView.get_serializer_class self = Raise AttributeError
            ∧ HabitUpdateAPIView.get_serializer_class self = Raise AttributeError)
    as Hclass.
  { intros self Hself.
    unfold HabitCreateAPIView.get_serializer_class,
      HabitUpdateAPIView.get_serializer_class, data.
    rewrite Hself. destruct (http_data r) as [| | | | | |d|] eqn:Hd;
      try (split; reflexivity).
    by destruct (Hbody d). }
  split.
  - intros Hm kw. rewrite (create_view r R) by done.
    by rewrite (proj1 (Hclass (mkView (mkRequest r (AuthUser R)) kw) eq_refl)).
  - intros Hm h Hpk Hown.
    change HabitUpdateAPIView.cls with (class_of Update).
    rewrite (as_view_authenticated Update r R) by done.
    assert (∀ partial,
              update HabitUpdateAPIView.cls partial
                (mkView (mkRequest r (AuthUser R)) {[ "pk" := pk ]}) objects
              = (Raise AttributeError, objects)) as Hupdate.
    { intros partial. unfold update, bind.
      rewrite (get_object_scoped _ (Q_user (AuthUser R))) by done.
      rewrite Hpk, <- Hown, Q_user_own. unfold lift.
      cbn [GenericAPIView.get_serializer_class HabitUpdateAPIView.cls].
      by rewrite (proj2 (Hclass (mkView (mkRequest r (AuthUser (user h)))
                                   {[ "pk" := pk ]}) eq_refl)). }
    unfold call_handler, method. simpl.
    destruct Hm as [-> | ->]; simpl; by rewrite Hupdate.
Qed.

(** X8.  The retrieve scope is the union of the two list scopes: for a
    request of user [U], a row is in the retrieve view's queryset exactly
    when it is in the list-mine queryset of the same request or in the
    list-public queryset. *)
Theorem retrieve_scope_is_union (objects : HabitTable) (self : View) (U : Z) :
  request_user (request self) = AuthUser U →
  ∀ pk h,
    (∃ qs, HabitRetrieveAPIView.get_queryset self objects = Ok qs ∧ qs !! pk = Some h)
    ↔ (∃ qs, HabitListAPIView.get_queryset self objects = Ok qs ∧ qs !! pk = Some h)
      ∨ (∃ qs, HabitPublicListAPIView.queryset objects = Ok qs ∧ qs !! pk = Some h).
Proof.
  intros HU pk h.
  unfold HabitRetrieveAPIView.get_queryset, HabitListAPIView.get_queryset,
    HabitPublicListAPIView.queryset. rewrite HU.
  destruct (Habit_objects_filter_lookup
              (Q_or (Q_is_published true) (Q_user (AuthUser U))) objects eq_refl)
    as (qr & -> & Hr).
  destruct (Habit_objects_filter_lookup (Q_user (AuthUser U)) objects eq_refl)
    as (qm & -> & Hm).
  destruct (Habit_objects_filter_lookup (Q_is_published true) objects eq_refl)
    as (qp & -> & Hp).
  split.
  - intros (qs & [= <-] & Hin). apply Hr in Hin as [Hpk Hq].
    cbn [Q_matches] in Hq. apply orb_true_iff in Hq as [Hq | Hq].
    + right. exists qp. split; [reflexivity|]. by apply Hp.
    + left. exists qm. split; [reflexivity|]. by apply Hm.
  - intros [(qs & [= <-] & Hin) | (qs & [= <-] & Hin)]; exists qr;
      (split; [reflexivity|]); apply Hr.
    + apply Hm in Hin as [Hpk Hq]. split; [done|].
      cbn [Q_matches]. apply orb_true_iff. by right.
    + apply Hp in Hin as [Hpk Hq]. split; [done|].
      cbn [Q_matches]. apply orb_true_iff. by left.
Qed.

(** The rows a list view shows come from its queryset, when the field
    filter and the search only narrow a queryset and the paginator only
    picks rows of it. *)
Lemma list_page_from_queryset cls (self : View) (objects : HabitTable)
    (sc : SerializerClass) (page : list (Z * Habit)) (resp : Response) :
  (∀ fs params qs qs', filter_by_fields fs params qs = Ok qs' → qs' ⊆ qs) →
  (∀ fs params qs qs', search_by_fields fs params qs = Ok qs' → qs' ⊆ qs) →
  (∀ p params qs page', paginate_queryset p params qs = Ok page' →
     ∀ pk h, (pk, h) ∈ page' → qs !! pk = Some h) →
  (list_ cls self objects).1 = Ok resp →
  body resp = Page sc page →
  ∃ qs, GenericAPIView.get_queryset cls self objects = Ok qs
        ∧ ∀ pk h, (pk, h) ∈ page → qs !! pk = Some h.
Proof.
  intros Hfilter Hsearch Hpaginate Hlist Hbody.
  unfold list_, bind, get_store, lift, ret in Hlist.
  destruct (GenericAPIView.get_queryset cls self objects) as [qs|e]; [|discriminate].
  exists qs. split; [reflexivity|].
  assert (∀ backends qs1 qs2,
            filter_queryset_loop cls backends (query_params (request self)) qs1 = Ok qs2 →
            qs2 ⊆ qs1) as Hloop.
  { induction backends as [|b rest IH]; intros qs1 qs2; simpl.
    - by intros [= <-].
    - destruct (apply_backend cls b _ qs1) as [qs'|e] eqn:Hb; [|discriminate].
      intros Hrest%IH. etrans; [exact Hrest|].
      destruct b; simpl in Hb.
      + destruct (GenericAPIView.filterset_fields cls); [by eapply Hfilter|].
        by injection Hb as <-.
      + destruct (GenericAPIView.search_fields cls); [by eapply Hsearch|].
        by injection Hb as <-.
      + by injection Hb as <-. }
  destruct (filter_queryset cls self qs) as [qs'|e] eqn:Hfq; [|discriminate].
  apply Hloop in Hfq.
  destruct (match GenericAPIView.pagination_class cls with
            | Some p => paginate_queryset p (query_params (request self)) qs'
            | None => Ok (map_to_list qs')
            end) as [page'|e] eqn:Hpage; [|discriminate].
  destruct (GenericAPIView.get_serializer_class cls self) as [sc'|e]; [|discriminate].
  simpl in Hlist. injection Hlist as <-. simpl in Hbody. injection Hbody as <- <-.
  intros pk h Hin. eapply lookup_weaken; [|exact Hfq].
  destruct (GenericAPIView.pagination_class cls) as [p|].
  - by eapply Hpaginate.
  - injection Hpage as <-. by apply elem_of_map_to_list.
Qed.

Lemma list_view_page (v : HabitView) (r : HttpRequest) (U : Z) (kw : gmap string Z)
    (objects : HabitTable) (sc : SerializerClass) (page : list (Z * Habit)) :
  v = ListMine ∨ v = ListPublic →
  http_authorization r = ValidToken U →
  (as_view (class_of v) r kw objects).1 = mkResponse 200 (Page sc page) →
  ∃ resp, (list_ (class_of v) (mkView (mkRequest r (AuthUser U)) kw) objects).1 = Ok resp
          ∧ body resp = Page sc page.
Proof.
  intros Hv Ha. rewrite (as_view_authenticated v r U) by done.
  unfold call_handler, method. cbn [http request].
  assert (∀ e, handle_exception (as_APIView (class_of v)) e
               ≠ mkResponse 200 (Page sc page)) as Hexc by (intros e; discriminate).
  destruct (generics.handlers (class_of v) (http_method r)) as [handler|] eqn:Hh.
  2:{ intros Hresp. by destruct (Hexc MethodNotAllowed). }
  assert (handler = list_ (class_of v) ∨ handler = options (class_of v)) as [-> | ->].
  { unfold generics.handlers in Hh.
    destruct Hv as [-> | ->]; destruct (http_method r); simpl in Hh; simplify_eq; auto. }
  - destruct (list_ (class_of v) _ objects) as [[resp|e] objects'] eqn:Hlist.
    + simpl. intros ->. by exists (mkResponse 200 (Page sc page)).
    + simpl. intros Hresp. by destruct (Hexc e).
  - discriminate.
Qed.

(** X9.  The list views show nothing outside their scope.  Provided the
    field filter and the search only narrow a queryset and the paginator
    only picks rows of the queryset it is given, every row on a page of the
    list-mine view is a row of the table owned by the requester, and every
    row on a page of the list-public view is a published row of the table,
    whatever the query parameters are. *)
Theorem list_pages_within_scope (r : HttpRequest) (U : Z) (kw : gmap string Z)
    (objects : HabitTable) :
  (∀ fs params qs qs', filter_by_fields fs params qs = Ok qs' → qs' ⊆ qs) →
  (∀ fs params qs qs', search_by_fields fs params qs = Ok qs' → qs' ⊆ qs) →
  (∀ p params qs page, paginate_queryset p params qs = Ok page →
     ∀ pk h, (pk, h) ∈ page → qs !! pk = Some h) →
  http_authorization r = ValidToken U →
  (∀ sc page,
     (as_view HabitListAPIView.cls r kw objects).1 = mkResponse 200 (Page sc page) →
     ∀ pk h, (pk, h) ∈ page → objects !! pk = Some h ∧ user h = U)
  ∧ (∀ sc page,
       (as_view HabitPublicListAPIView.cls r kw objects).1
         = mkResponse 200 (Page sc page) →
       ∀ pk h, (pk, h) ∈ page → objects !! pk = Some h ∧ is_published h = true).
Proof.
  intros Hfilter Hsearch Hpaginate Ha. split; intros sc page Hresp pk h Hin.
  - destruct (list_view_page ListMine r U kw objects sc page) as (resp & Hlist & Hbody);
      [by left | done | done |].
    destruct (list_page_from_queryset _ _ _ _ _ _ Hfilter Hsearch Hpaginate Hlist Hbody)
      as (qs & Hqs & Hpage).
    destruct (Habit_objects_filter_lookup (Q_user (AuthUser U)) objects eq_refl)
      as (qs' & Hqs' & Hscope).
    simpl in Hqs. unfold HabitListAPIView.get_queryset in Hqs. simpl in Hqs.
    rewrite Hqs' in Hqs. injection Hqs as ->.
    apply Hpage, Hscope in Hin as [Hpk Hown]. split; [done|].
    simpl in Hown. apply bool_decide_eq_true in Hown. congruence.
  - destruct (list_view_page ListPublic r U kw objects sc page)
      as (resp & Hlist & Hbody); [by right | done | done |].
    destruct (list_page_from_queryset _ _ _ _ _ _ Hfilter Hsearch Hpaginate Hlist Hbody)
      as (qs & Hqs & Hpage).
    destruct (Habit_objects_filter_lookup (Q_is_published true) objects eq_refl)
      as (qs' & Hqs' & Hscope).
    simpl in Hqs. unfold HabitPublicListAPIView.queryset in Hqs.
    rewrite Hqs' in Hqs. injection Hqs as ->.
    apply Hpage, Hscope in Hin as [Hpk Hpub]. split; [done|].
    simpl in Hpub. by destruct (is_published h).
Qed.

End composition.

Section composition_witnesses.
#[local] Existing Instance sample.project.

Lemma created_habit_retrievable_witness :
  let out := as_view HabitCreateAPIView.cls
               (sample.http_request POST (ValidToken 2) (PDict ∅)) ∅ sample.habits in
  ∃ sc pk h,
    out.1 = mkResponse 201 (Object sc pk h)
    ∧ (∀ r' R', http_authorization r' = ValidToken R' → http_method r' = GET →
         as_view HabitRetrieveAPIView.cls r' {[ "pk" := pk ]} out.2 =
           (if is_published h || bool_decide (2 = R')
            then mkResponse 200 (Object HabitListRetrieveSerializer pk h)
            else not_found, out.2))
    ∧ (∀ r' kw', ∃ qs,
         HabitListAPIView.get_queryset (mkView (mkRequest r' (AuthUser 2)) kw') out.2
           = Ok qs ∧ qs !! pk = Some h).
Proof.
  exact (created_habit_retrievable sample.habits 2
           (sample.http_request POST (ValidToken 2) (PDict ∅)) ∅
           eq_refl eq_refl eq_refl).
Defined.

Lemma create_then_destroy_witness :
  let out := as_view HabitCreateAPIView.cls
               (sample.http_request POST (ValidToken 2) (PDict ∅)) ∅ sample.habits in
  ∃ sc pk h,
    out.1 = mkResponse 201 (Object sc pk h)
    ∧ as_view HabitDestroyAPIView.cls (sample.http_request DELETE (ValidToken 2) PNone)
        {[ "pk" := pk ]} out.2
      = (mkResponse 204 NoBody, sample.habits).
Proof.
  exact (create_then_destroy sample.habits 2
           (sample.http_request POST (ValidToken 2) (PDict ∅))
           (sample.http_request DELETE (ValidToken 2) PNone) ∅
           eq_refl eq_refl eq_refl eq_refl eq_refl).
Defined.

Lemma destroyed_habit_not_found_witness :
  let out := as_view HabitDestroyAPIView.cls
               (sample.http_request DELETE (ValidToken 1) PNone) {[ "pk" := 11 ]}
               sample.habits in
  as_view HabitRetrieveAPIView.cls (sample.http_request GET (ValidToken 2) PNone)
    {[ "pk" := 11 ]} out.2 = (not_found, out.2).
Proof.
  intros out.
  apply (proj1 (destroyed_habit_not_found (H:=sample.project) sample.habits 11
                  (sample.http_request DELETE (ValidToken 1) PNone) eq_refl
                  (sample.http_request GET (ValidToken 2) PNone) 2 eq_refl)).
  reflexivity.
Defined.

Lemma non_mapping_body_fails_witness :
  as_view HabitCreateAPIView.cls
    (sample.http_request POST (ValidToken 1) (PList [PInt 1])) ∅ sample.habits
    = (mkResponse 500 (Detail AttributeError), sample.habits)
  ∧ as_view HabitUpdateAPIView.cls
      (sample.http_request PATCH (ValidToken 1) PNone) {[ "pk" := 10 ]} sample.habits
    = (mkResponse 500 (Detail AttributeError), sample.habits).
Proof.
  split.
  - apply (proj1 (non_mapping_body_fails sample.habits 1 10
                    (sample.http_request POST (ValidToken 1) (PList [PInt 1]))
                    eq_refl ltac:(discriminate)));
      reflexivity.
  - apply (proj2 (non_mapping_body_fails sample.habits 1 10
                    (sample.http_request PATCH (ValidToken 1) PNone)
                    eq_refl ltac:(discriminate))
             (or_intror eq_refl) (mkHabit 1 false ∅));
      reflexivity.
Defined.

Lemma retrieve_scope_is_union_witness :
  (∃ qs, HabitRetrieveAPIView.get_queryset
           (mkView (mkRequest (sample.http_request GET (ValidToken 2) PNone)
                              (AuthUser 2)) ∅) sample.habits = Ok qs
         ∧ qs !! 11 = Some (mkHabit 1 true ∅))
  ↔ (∃ qs, HabitListAPIView.get_queryset
             (mkView (mkRequest (sample.http_request GET (ValidToken 2) PNone)
                                (AuthUser 2)) ∅) sample.habits = Ok qs
           ∧ qs !! 11 = Some (mkHabit 1 true ∅))
    ∨ (∃ qs, HabitPublicListAPIView.queryset sample.habits = Ok qs
             ∧ qs !! 11 = Some (mkHabit 1 true ∅)).
Proof.
  exact (retrieve_scope_is_union sample.habits
           (mkView (mkRequest (sample.http_request GET (ValidToken 2) PNone)
                              (AuthUser 2)) ∅) 2 eq_refl 11 (mkHabit 1 true ∅)).
Defined.

Lemma sample_filter_narrows (fs : FieldsAttr) (params : gmap string string)
    (qs qs' : HabitTable) :
  filter_by_fields fs params qs = Ok qs' → qs' ⊆ qs.
Proof.
  simpl. destruct (params !! "is_published") as [s|]; [|by intros [= <-]].
  destruct (decide (s = "true")) as [->|Htrue].
  { intros [= <-]. apply map_filter_subseteq. }
  destruct (decide (s = "false")) as [->|Hfalse].
  { intros [= <-]. apply map_filter_subseteq. }
  assert (match s with
          | "true" => Ok (filter (λ row : Z * Habit, is_published row.2 = true) qs)
          | "false" => Ok (filter (λ row : Z * Habit, is_published row.2 = false) qs)
          | _ => Ok qs
          end = Ok qs ∨ s = "true" ∨ s = "false") as [-> | [? | ?]]; [|by intros [= <-]|done..].
  clear. repeat (destruct s as [|[[] [] [] [] [] [] [] []] s]; auto).
Qed.

Lemma list_pages_within_scope_witness :
  (∀ sc page,
     (as_view HabitListAPIView.cls (sample.http_request GET (ValidToken 1) PNone) ∅
        sample.habits).1 = mkResponse 200 (Page sc page) →
     ∀ pk h, (pk, h) ∈ page → sample.habits !! pk = Some h ∧ user h = 1)
  ∧ (∀ sc page,
       (as_view HabitPublicListAPIView.cls (sample.http_request GET (ValidToken 1) PNone)
          ∅ sample.habits).1 = mkResponse 200 (Page sc page) →
       ∀ pk h, (pk, h) ∈ page → sample.habits !! pk = Some h ∧ is_published h = true).
Proof.
  apply (list_pages_within_scope (sample.http_request GET (ValidToken 1) PNone) 1 ∅
           sample.habits sample_filter_narrows).
  - intros fs params qs qs' [= <-]. reflexivity.
  - intros p params qs page [= <-] pk h Hin. by apply elem_of_map_to_list.
  - reflexivity.
Defined.

End composition_witnesses.

(** * Further properties of the user routes *)

Section routing_more.
Import urls.
#[local] Arguments String.append !s1 s2 : simpl nomatch.

Lemma digit_value_range (c : ascii) (d : Z) :
  digit_value c = Some d → (0 <= d)%Z ∧ (d <= 9)%Z.
Proof.
  unfold digit_value.
  destruct (Z.leb_spec 48 (Z.of_N (N_of_ascii c)));
    destruct (Z.leb_spec (Z.of_N (N_of_ascii c)) 57); simpl; intros [= <-]; lia.
Qed.

Lemma number_nonneg (s : string) (acc n : Z) :
  (0 <= acc)%Z → number acc s = Some n → (0 <= n)%Z.
Proof.
  revert acc. induction s as [|c s IH]; intros acc Hacc; simpl.
  - by intros [= <-].
  - destruct (digit_value c) as [d|] eqn:Hc; [|discriminate].
    apply IH. apply digit_value_range in Hc. lia.
Qed.

Lemma parse_id_nonneg (id : string) (n : Z) : parse_id id = Some n → (0 <= n)%Z.
Proof. intros [_ Hn]%parse_id_Some. by apply (number_nonneg id 0). Qed.

(** X10.  The keyword arguments of a resolved path: the retrieve, update and
    delete routes pass exactly one, [pk], and it is never negative; the
    other four routes pass none. *)
Theorem resolved_kwargs (s : string) (v : UserView) (kw : gmap string Z) :
  resolve urlpatterns s = Some (v, kw) →
  match v with
  | UserRetrieveAPIView | UserUpdateAPIView | UserDestroyAPIView =>
      ∃ n, (0 <= n)%Z ∧ kw = {[ "pk" := n ]}
  | UserCreateAPIView | UserListAPIView | TokenObtainPairView | TokenRefreshView =>
      kw = ∅
  end.
Proof.
  intros Hroute%resolve_sound.
  destruct Hroute as [| |id n Hn|id n Hn|id n Hn| |]; try reflexivity;
    exists n; split; try reflexivity; by apply parse_id_nonneg in Hn.
Qed.

(** X11.  Every route but the empty one needs its final slash: a path that
    resolves is empty or ends in a slash. *)
Theorem resolved_path_ends_in_slash (s : string) (v : UserView) (kw : gmap string Z) :
  resolve urlpatterns s = Some (v, kw) →
  s = "" ∨ ∃ s', s = s' +:+ "/".
Proof.
  intros Hroute%resolve_sound.
  destruct Hroute as [| |id n Hn|id n Hn|id n Hn| |].
  - right. by exists "create".
  - by left.
  - right. by exists id.
  - right. by exists ("update/" +:+ id).
  - right. by exists ("delete/" +:+ id).
  - right. by exists "token".
  - right. by exists "token/refresh".
Qed.

(** X12.  Leading zeros do not change the user a path names: an identifier
    and the same identifier with a zero in front resolve alike, on the
    retrieve, the update and the delete route. *)
Theorem leading_zero_same_route (id : string) (n : Z) :
  parse_id id = Some n →
  resolve urlpatterns ("0" +:+ id +:+ "/") = resolve urlpatterns (id +:+ "/")
  ∧ resolve urlpatterns ("update/" +:+ "0" +:+ id +:+ "/")
    = resolve urlpatterns ("update/" +:+ id +:+ "/")
  ∧ resolve urlpatterns ("delete/" +:+ "0" +:+ id +:+ "/")
    = resolve urlpatterns ("delete/" +:+ id +:+ "/").
Proof.
  intros Hn.
  assert (parse_id ("0" +:+ id) = Some n) as Hn0.
  { apply parse_id_Some in Hn as [_ Hn]. apply parse_id_Some. split; [done|].
    exact Hn. }
  split; [|split].
  - rewrite (resolve_complete _ _ _ (route_retrieve id n Hn)).
    exact (resolve_complete _ _ _ (route_retrieve ("0" +:+ id) n Hn0)).
  - rewrite (resolve_complete _ _ _ (route_update id n Hn)).
    exact (resolve_complete _ _ _ (route_update ("0" +:+ id) n Hn0)).
  - rewrite (resolve_complete _ _ _ (route_delete id n Hn)).
    exact (resolve_complete _ _ _ (route_delete ("0" +:+ id) n Hn0)).
Qed.

(** The shape of the paths a pattern of the table matches, in the order of
    the table: 1 to 7. *)
Lemma match_route_shape (p : URLPattern) (s : string) (kw : gmap string Z) :
  p ∈ urlpatterns →
  match_route p s = Some kw →
  (p = path "create/" UserCreateAPIView "users_create" ∧ s = "create/")
  ∨ (p = path "" UserListAPIView "users_list" ∧ s = "")
  ∨ (p = path "<int:pk>/" UserRetrieveAPIView "users_get"
     ∧ ∃ c rest d, s = String c rest ∧ digit_value c = Some d)
  ∨ (p = path "update/<int:pk>/" UserUpdateAPIView "users_update"
     ∧ ∃ rest, s = "update/" +:+ rest)
  ∨ (p = path "delete/<int:pk>/" UserDestroyAPIView "users_delete"
     ∧ ∃ rest, s = "delete/" +:+ rest)
  ∨ (p = path "token/" TokenObtainPairView "token_obtain_pair" ∧ s = "token/")
  ∨ (p = path "token/refresh/" TokenRefreshView "token_refresh"
     ∧ s = "token/refresh/").
Proof.
  unfold urlpatterns. rewrite !elem_of_cons, elem_of_nil.
  intros [-> | [-> | [-> | [-> | [-> | [-> | [-> | []]]]]]]] Hm.
  - apply match_route_lit in Hm as [-> _]; [|reflexivity]. by left.
  - apply match_route_empty in Hm as [-> _]. right. by left.
  - apply match_route_id in Hm as (id & n & -> & Hn & _).
    apply parse_id_head in Hn as (c & rest & d & -> & Hd).
    do 2 right. left. split; [done|]. by exists c, (rest +:+ "/"), d.
  - apply (match_route_prefix_id "update/") in Hm as (id & n & -> & _);
      [|reflexivity].
    do 3 right. left. split; [done|]. by exists (id +:+ "/").
  - apply (match_route_prefix_id "delete/") in Hm as (id & n & -> & _);
      [|reflexivity].
    do 4 right. left. split; [done|]. by exists (id +:+ "/").
  - apply match_route_lit in Hm as [-> _]; [|reflexivity]. do 5 right. by left.
  - apply match_route_lit in Hm as [-> _]; [|reflexivity]. do 6 right. done.
Qed.

(** X13.  No path is matched by two patterns of the table, so the order of
    [urlpatterns] decides nothing: whichever patterns match a path are one
    and the same pattern. *)
Theorem routes_disjoint (p1 p2 : URLPattern) (s : string) (kw1 kw2 : gmap string Z) :
  p1 ∈ urlpatterns →
  p2 ∈ urlpatterns →
  match_route p1 s = Some kw1 →
  match_route p2 s = Some kw2 →
  p1 = p2 ∧ kw1 = kw2.
Proof.
  intros Hp1 Hp2 Hm1 Hm2.
  assert (p1 = p2) as <-; [|split; congruence].
  pose proof (match_route_shape p1 s kw1 Hp1 Hm1) as Hs1.
  pose proof (match_route_shape p2 s kw2 Hp2 Hm2) as Hs2.
  destruct Hs1 as [[-> Hs1] | [[-> Hs1] | [[-> (c1 & r1 & d1 & Hs1 & Hd1)]
    | [[-> [r1 Hs1]] | [[-> [r1 Hs1]] | [[-> Hs1] | [-> Hs1]]]]]]];
  destruct Hs2 as [[-> Hs2] | [[-> Hs2] | [[-> (c2 & r2 & d2 & Hs2 & Hd2)]
    | [[-> [r2 Hs2]] | [[-> [r2 Hs2]] | [[-> Hs2] | [-> Hs2]]]]]]];
  try reflexivity; exfalso; subst s; simpl in Hs2; simplify_eq;
  try discriminate.
Qed.

End routing_more.

Section routing_witnesses.
Import urls.

Lemma resolved_kwargs_witness : ∃ n, (0 <= n)%Z ∧ ({[ "pk" := 42 ]} : gmap string Z) = {[ "pk" := n ]}.
Proof.
  exact (resolved_kwargs "update/42/" UserUpdateAPIView {[ "pk" := 42 ]} eq_refl).
Defined.

Lemma resolved_path_ends_in_slash_witness :
  "delete/7/" = "" ∨ ∃ s', "delete/7/" = s' +:+ "/".
Proof.
  exact (resolved_path_ends_in_slash "delete/7/" UserDestroyAPIView {[ "pk" := 7 ]}
           eq_refl).
Defined.

Lemma leading_zero_same_route_witness :
  resolve urlpatterns ("0" +:+ "7" +:+ "/") = resolve urlpatterns ("7" +:+ "/")
  ∧ resolve urlpatterns ("update/" +:+ "0" +:+ "7" +:+ "/")
    = resolve urlpatterns ("update/" +:+ "7" +:+ "/")
  ∧ resolve urlpatterns ("delete/" +:+ "0" +:+ "7" +:+ "/")
    = resolve urlpatterns ("delete/" +:+ "7" +:+ "/").
Proof. exact (leading_zero_same_route "7" 7 eq_refl). Defined.

Lemma routes_disjoint_witness :
  path "token/" TokenObtainPairView "token_obtain_pair"
    = path "token/" TokenObtainPairView "token_obtain_pair"
  ∧ (∅ : gmap string Z) = ∅.
Proof.
  apply (routes_disjoint (path "token/" TokenObtainPairView "token_obtain_pair")
           (path "token/" TokenObtainPairView "token_obtain_pair") "token/" ∅ ∅);
    first [reflexivity | unfold urlpatterns; repeat constructor].
Defined.

End routing_witnesses.

(** * The owner's update *)

Section owner_update.
Context `{Project}.

(** X14.  The owner's update goes through.  A [PUT] or [PATCH] of the
    authenticated owner of the row under the URL's key, with a body that
    passes the chosen serializer's validation and validated data that name
    no [user] and a boolean or no [is_published], is answered 200; the row
    under that key is replaced by the row the response shows, which still
    belongs to the requester, and every other row stays. *)
Theorem owner_update_succeeds (objects : HabitTable) (pk R : Z) (h : Habit)
    (r : HttpRequest) (partial : bool) (sc : SerializerClass)
    (vd : gmap string pyval) :
  http_authorization r = ValidToken R →
  (http_method r = PUT ∧ partial = false) ∨ (http_method r = PATCH ∧ partial = true) →
  objects !! pk = Some h →
  user h = R →
  HabitUpdateAPIView.get_serializer_class
    (mkView (mkRequest r (AuthUser R)) {[ "pk" := pk ]}) = Ok sc →
  run_validation sc (Some (pk, h)) partial (http_data r) = Ok vd →
  vd !! "user" = None →
  vd !! "is_published" = None ∨ (∃ b, vd !! "is_published" = Some (PBool b)) →
  ∃ h',
    as_view HabitUpdateAPIView.cls r {[ "pk" := pk ]} objects
      = (mkResponse 200 (Object sc pk h'), <[pk := h']> objects)
    ∧ user h' = R.
Proof.
  intros Ha Hm Hpk Hown Hsc Hvd Huser Hpub.
  assert (∃ h', set_attrs h (∅ ∪ vd) = Ok h' ∧ user h' = user h) as (h' & Hset & Hkeep).
  { rewrite (left_id_L ∅ (∪)). unfold set_attrs. rewrite Huser.
    destruct Hpub as [-> | [b ->]]; eauto. }
  exists h'. split; [|congruence].
  change HabitUpdateAPIView.cls with (class_of Update).
  rewrite (as_view_authenticated Update r R) by done.
  assert (update HabitUpdateAPIView.cls partial
            (mkView (mkRequest r (AuthUser R)) {[ "pk" := pk ]}) objects
          = (Ok (mkResponse 200 (Object sc pk h')), <[pk := h']> objects)) as Hupdate.
  { unfold update, bind.
    rewrite (get_object_scoped _ (Q_user (AuthUser R))) by done.
    rewrite Hpk. rewrite <- Hown at 1. rewrite Q_user_own. unfold lift.
    cbn [GenericAPIView.get_serializer_class HabitUpdateAPIView.cls].
    rewrite Hsc. unfold update_with, bind, lift, data. cbn [request http].
    rewrite Hvd.
    unfold perform_update, save, instance_update, bind, lift, get_store, put_store, ret.
    cbn [ser_instance validated_data fst snd]. by rewrite Hset. }
  unfold call_handler, method. cbn [http].
  destruct Hm as [[-> ->] | [-> ->]]; simpl; by rewrite Hupdate.
Qed.

End owner_update.

Section owner_update_witnesses.
#[local] Existing Instance sample.project.

Lemma owner_update_succeeds_witness :
  ∃ h',
    as_view HabitUpdateAPIView.cls
      (sample.http_request PATCH (ValidToken 1) (PDict {[ "is_published" := PBool true ]}))
      {[ "pk" := 10 ]} sample.habits
      = (mkResponse 200 (Object HabitPleasantCreateUpdateSerializer 10 h'),
         <[10 := h']> sample.habits)
    ∧ user h' = 1.
Proof.
  apply (owner_update_succeeds (H:=sample.project) sample.habits 10 1
           (mkHabit 1 false ∅)
           (sample.http_request PATCH (ValidToken 1)
              (PDict {[ "is_published" := PBool true ]}))
           true HabitPleasantCreateUpdateSerializer {[ "is_published" := PBool true ]});
    [reflexivity | right; split; reflexivity | reflexivity | reflexivity
    | reflexivity | reflexivity | reflexivity | right; exists true; reflexivity].
Defined.

End owner_update_witnesses.
